(** * unichow: the verification service and the restaurant settings page

    A shallow embedding of [verificationService] (uploadDocument,
    getVerificationStatus, getDocuments, updateVerificationStatus,
    deleteDocument) and of the submit / fetch handlers of
    [RestaurantSettings.tsx].

    The TypeScript code is straight-line [async] code over two managed
    services (a document database and an object store).  It is modelled as
    a state-and-exception monad over a [World] holding both stores, the
    console and the log of the requests sent to the services.  Whatever the
    program cannot decide itself (whether a request fails, what the clock
    reads, which identifier is generated) is read from an [Env]. Every
    [await] is run to completion before the next statement: one caller at
    a time, as the code is written.

    Of the services the model takes what their interface documents:
    [setDoc] replaces a document and [updateDoc] writes the given
    properties into an existing one and fails without one; [deleteDoc]
    succeeds on a missing document; [getDownloadURL] and [deleteObject]
    fail on a missing object; [setDoc] fails on an object that has a
    property holding [undefined], unless the database was set up to
    ignore such properties (the set-up is in firebase/config, which is not
    among the sources, and is read from the [Env]); a refused request
    changes nothing. *)

From Stdlib Require Import ZArith String List Lia DecimalString.
From stdpp Require Import gmap strings list fin_maps.

Local Open Scope string_scope.
Local Open Scope Z_scope.
Local Open Scope list_scope.
Set Warnings "-register-all".

(** ** JavaScript values and objects *)

Inductive Value : Type :=
  | VUndef
  | VNull
  | VBool (b : bool)
  | VNum (n : Z)
  | VStr (s : string)
  | VArr (l : list Value)
  | VObj (l : list (string * Value)).

(** A plain object: property name to value. *)
Abbreviation Fields := (gmap string Value).

(** [o.k]: reading a property that is not there gives [undefined]. *)
Definition prop (o : Fields) (k : string) : Value := default VUndef (o !! k).

(** What [if (v)] and [.filter(x => v)] test. *)
Definition truthy (v : Value) : bool :=
  match v with
  | VUndef | VNull => false
  | VBool b => b
  | VNum n => negb (n =? 0)
  | VStr s => negb (String.eqb s "")
  | VArr _ | VObj _ => true
  end.

(** [v === 'lit'] for a string literal. *)
Definition is_str (lit : string) (v : Value) : bool :=
  match v with
  | VStr s => String.eqb s lit
  | _ => false
  end.

Definition is_undef (v : Value) : bool :=
  match v with
  | VUndef => true
  | _ => false
  end.

(** No property of the object holds [undefined]. *)
Definition defined_only (o : Fields) : Prop :=
  map_Forall (fun _ v => is_undef v = false) o.

(** The object without the properties that hold [undefined]. *)
Definition strip_undefined (o : Fields) : Fields :=
  filter (fun kv => is_undef (snd kv) = false) o.

(** ** Dates *)

Definition string_of_Z (n : Z) : string := NilZero.string_of_int (Z.to_int n).

Fixpoint zeros (k : nat) : string :=
  match k with
  | O => ""
  | S k' => "0" +:+ zeros k'
  end.

(** Decimal digits of a non-negative number, left-padded with zeros. *)
Definition pad (width : nat) (n : Z) : string :=
  let s := string_of_Z n in
  zeros (width - String.length s)%nat +:+ s.

Definition msPerDay : Z := 86400000.

(** Day number (days since 1970-01-01) to proleptic Gregorian
    (year, month, day). *)
Definition civil_from_days (day : Z) : Z * Z * Z :=
  let z := day + 719468 in
  let era := z / 146097 in
  let doe := z - era * 146097 in
  let yoe := (doe - doe / 1460 + doe / 36524 - doe / 146096) / 365 in
  let doy := doe - (365 * yoe + yoe / 4 - yoe / 100) in
  let mp := (5 * doy + 2) / 153 in
  let d := doy - (153 * mp + 2) / 5 + 1 in
  let m := if mp <? 10 then mp + 3 else mp - 9 in
  let y := yoe + era * 400 in
  (if m <=? 2 then y + 1 else y, m, d).

Definition year_string (y : Z) : string :=
  if (0 <=? y) && (y <=? 9999) then pad 4 y
  else if y <? 0 then "-" +:+ pad 6 (- y)
  else "+" +:+ pad 6 y.

(** [new Date(ms).toISOString()]: YYYY-MM-DDTHH:mm:ss.sssZ in UTC. *)
Definition toISOString (ms : Z) : string :=
  let '(y, m, d) := civil_from_days (ms / msPerDay) in
  let t := ms mod msPerDay in
  year_string y +:+ "-" +:+ pad 2 m +:+ "-" +:+ pad 2 d +:+ "T" +:+
  pad 2 (t / 3600000) +:+ ":" +:+ pad 2 (t / 60000 mod 60) +:+ ":" +:+
  pad 2 (t / 1000 mod 60) +:+ "." +:+ pad 3 (t mod 1000) +:+ "Z".

(** ** The two services *)

(** What the code throws and catches. *)
Inductive Error : Type := FirebaseError (code : string).

(** A document reference: the path of its collection and its identifier
    in it.  [doc(db, `c/${i}`)] is [(c, i)]: identifiers are single
    path segments. *)
Abbreviation DocRef := (string * string)%type.

(** The document database.  Kept in a list: a collection query returns the
    documents in the order of the store. *)
Abbreviation Firestore := (list (DocRef * Fields)).

Fixpoint fs_get (r : DocRef) (db : Firestore) : option Fields :=
  match db with
  | [] => None
  | (r', f) :: db' => if decide (r' = r) then Some f else fs_get r db'
  end.

(** [setDoc] without merge option: the whole document is replaced. *)
Fixpoint fs_set (r : DocRef) (f : Fields) (db : Firestore) : Firestore :=
  match db with
  | [] => [(r, f)]
  | (r', f') :: db' =>
      if decide (r' = r) then (r, f) :: db' else (r', f') :: fs_set r f db'
  end.

Definition fs_delete (r : DocRef) (db : Firestore) : Firestore :=
  filter (fun e => fst e ≠ r) db.

(** [getDocs(collection(db, c))]: identifier and data of each document. *)
Definition fs_query (c : string) (db : Firestore) : list (string * Fields) :=
  map (fun e => (snd (fst e), snd e)) (filter (fun e => fst (fst e) = c) db).

Record File : Type := { name : string; content : list Byte.byte }.

(** A request sent to one of the services, as it appears in the log. *)
Inductive Request : Type :=
  | UploadBytes (loc : string) (file : File)
  | GetDownloadURL (loc : string)
  | DeleteObject (loc : string)
  | SetDoc (r : DocRef) (data : Fields)
  | UpdateDoc (r : DocRef) (data : Fields)
  | GetDoc (r : DocRef)
  | GetDocs (c : string)
  | DeleteDoc (r : DocRef).

(** [console] and [requests] are logs, most recent entry first; [ticks]
    counts the readings of the clock and [drawn] the identifiers generated
    so far. *)
Record World : Type := {
  firestore : Firestore;
  storage : gmap string File;
  console : list (string * Error);
  requests : list (Request * option Error);
  ticks : nat;
  drawn : nat
}.

(** What the program does not decide: the error, if any, with which the
    n-th request is refused; the n-th reading of the clock (milliseconds
    since the epoch); the n-th generated identifier; the URL the object
    store serves for a location, and the location [ref(storage, url)]
    resolves to; whether the database was initialised with
    [ignoreUndefinedProperties] (off unless asked for). *)
Record Env : Type := {
  fault : nat -> option Error;
  clock : nat -> Z;
  autoId : nat -> string;
  downloadURL : string -> string;
  locationOf : string -> string;
  ignoreUndefinedProperties : bool
}.

Definition set_firestore (db : Firestore) (w : World) : World :=
  {| firestore := db; storage := storage w; console := console w;
     requests := requests w; ticks := ticks w; drawn := drawn w |}.

Definition set_storage (st : gmap string File) (w : World) : World :=
  {| firestore := firestore w; storage := st; console := console w;
     requests := requests w; ticks := ticks w; drawn := drawn w |}.

Definition log_request (q : Request) (o : option Error) (w : World) : World :=
  {| firestore := firestore w; storage := storage w; console := console w;
     requests := (q, o) :: requests w; ticks := ticks w; drawn := drawn w |}.

(** ** Computations: a state that survives exceptions *)

Inductive Result (A : Type) : Type :=
  | Ok (a : A)
  | Threw (e : Error).
Arguments Ok {A} a.
Arguments Threw {A} e.

Definition M (A : Type) : Type := World -> Result A * World.

Definition ret {A} (a : A) : M A := fun w => (Ok a, w).

Definition throw {A} (e : Error) : M A := fun w => (Threw e, w).

Definition bind {A B} (m : M A) (k : A -> M B) : M B :=
  fun w =>
    match m w with
    | (Ok a, w') => k a w'
    | (Threw e, w') => (Threw e, w')
    end.

(** [try { m } catch (error) { h error }] *)
Definition try_catch {A} (m : M A) (h : Error -> M A) : M A :=
  fun w =>
    match m w with
    | (Ok a, w') => (Ok a, w')
    | (Threw e, w') => h e w'
    end.

Notation "'let*' x ':=' m 'in' k" := (bind m (fun x => k))
  (at level 10, x binder, m at level 100, k at level 200).

(** [console.error(msg, error)] *)
Definition console_error (msg : string) (e : Error) : M unit :=
  fun w =>
    (Ok tt,
     {| firestore := firestore w; storage := storage w;
        console := (msg, e) :: console w;
        requests := requests w; ticks := ticks w; drawn := drawn w |}).

(** The shape every method of the service has:
    [try { body } catch (error) { console.error(msg, error); throw error; }] *)
Definition logged {A} (msg : string) (body : M A) : M A :=
  try_catch body (fun error => let* _ := console_error msg error in throw error).

(** [{ ...o, ...extra }]: the properties of [extra] win. *)
Definition spread (o extra : Fields) : Fields := extra ∪ o.

Section Backend.
Variable env : Env.

(** One request to a service.  The environment may refuse it, and then
    nothing is changed; otherwise the service performs it, which can fail
    for a reason of its own. Either way the request is logged with its
    outcome. *)
Definition request {A} (q : Request) (perform : World -> Result A * World) : M A :=
  fun w =>
    match fault env (length (requests w)) with
    | Some e => (Threw e, log_request q (Some e) w)
    | None =>
        match perform w with
        | (Ok a, w') => (Ok a, log_request q None w')
        | (Threw e, w') => (Threw e, log_request q (Some e) w')
        end
    end.

(** [getDoc(ref)]: the snapshot; [None] when [exists()] is false,
    otherwise [data()]. *)
Definition getDoc (r : DocRef) : M (option Fields) :=
  request (GetDoc r) (fun w => (Ok (fs_get r (firestore w)), w)).

(** [setDoc(ref, data)].  An object with a property that holds
    [undefined] is an invalid argument, unless such properties are ignored,
    and then they are left out of what is stored. *)
Definition setDoc (r : DocRef) (data : Fields) : M unit :=
  request (SetDoc r data)
    (fun w =>
       if decide (defined_only data) then
         (Ok tt, set_firestore (fs_set r data (firestore w)) w)
       else if ignoreUndefinedProperties env then
         (Ok tt, set_firestore (fs_set r (strip_undefined data) (firestore w)) w)
       else (Threw (FirebaseError "invalid-argument"), w)).

(** [updateDoc(ref, data)]: writes the given fields into an existing
    document and keeps its other fields; fails when there is no document.
    (The one caller hands over the state of a form: strings and what a
    read returned.) *)
Definition updateDoc (r : DocRef) (data : Fields) : M unit :=
  request (UpdateDoc r data)
    (fun w =>
       match fs_get r (firestore w) with
       | None => (Threw (FirebaseError "not-found"), w)
       | Some old => (Ok tt, set_firestore (fs_set r (spread old data) (firestore w)) w)
       end).

Definition getDocs (c : string) : M (list (string * Fields)) :=
  request (GetDocs c) (fun w => (Ok (fs_query c (firestore w)), w)).

(** [deleteDoc(ref)]: succeeds whether or not the document exists. *)
Definition deleteDoc (r : DocRef) : M unit :=
  request (DeleteDoc r)
    (fun w => (Ok tt, set_firestore (fs_delete r (firestore w)) w)).

Definition uploadBytes (loc : string) (file : File) : M unit :=
  request (UploadBytes loc file)
    (fun w => (Ok tt, set_storage (<[loc := file]> (storage w)) w)).

Definition getDownloadURL (loc : string) : M string :=
  request (GetDownloadURL loc)
    (fun w =>
       match storage w !! loc with
       | None => (Threw (FirebaseError "storage/object-not-found"), w)
       | Some _ => (Ok (downloadURL env loc), w)
       end).

Definition deleteObject (loc : string) : M unit :=
  request (DeleteObject loc)
    (fun w =>
       match storage w !! loc with
       | None => (Threw (FirebaseError "storage/object-not-found"), w)
       | Some _ => (Ok tt, set_storage (delete loc (storage w)) w)
       end).

(** [Date.now()], and the time value of [new Date()]. *)
Definition now : M Z :=
  fun w =>
    (Ok (clock env (ticks w)),
     {| firestore := firestore w; storage := storage w; console := console w;
        requests := requests w; ticks := S (ticks w); drawn := drawn w |}).

(** The identifier [doc(collection(db, c))] makes up. *)
Definition newId : M string :=
  fun w =>
    (Ok (autoId env (drawn w)),
     {| firestore := firestore w; storage := storage w; console := console w;
        requests := requests w; ticks := ticks w; drawn := S (drawn w) |}).
End Backend.

(** ** src/unnamed/part_000: the verification service *)

(** The declarations of [VerificationDocument] and [VerificationStatus]
    are in types/verification, which is not among the sources: [type] and
    [status] are kept as the strings they are at run time. *)
Record VerificationDocument : Type := {
  id : string;
  type : string;
  status : string;
  fileUrl : string;
  fileName : string;
  uploadedAt : string;
  expiryDate : option string
}.

Record VerificationStatus : Type := {
  isVerified : bool;
  documentsSubmitted : bool;
  pendingDocuments : list string;
  rejectedDocuments : list Value;
  lastUpdated : string
}.

(** The object [{ id, type, status, fileUrl, fileName, uploadedAt,
    expiryDate }] handed to [setDoc]: without an expiry date it has the
    property all the same, holding [undefined]. *)
Definition document_fields (d : VerificationDocument) : Fields :=
  let o : Fields :=
    {[ "id" := VStr (id d); "type" := VStr (type d); "status" := VStr (status d);
       "fileUrl" := VStr (fileUrl d); "fileName" := VStr (fileName d);
       "uploadedAt" := VStr (uploadedAt d) ]} in
  match expiryDate d with
  | Some e => <["expiryDate" := VStr e]> o
  | None => <["expiryDate" := VUndef]> o
  end.

Definition status_fields (s : VerificationStatus) : Fields :=
  {[ "isVerified" := VBool (isVerified s);
     "documentsSubmitted" := VBool (documentsSubmitted s);
     "pendingDocuments" := VArr (map VStr (pendingDocuments s));
     "rejectedDocuments" := VArr (rejectedDocuments s);
     "lastUpdated" := VStr (lastUpdated s) ]}.

(** The three types the service asks for, in the order of the source. *)
Definition requiredTypes : list string :=
  ["business_license"; "food_permit"; "identity"].

(** [`restaurants/${restaurantId}/verification`] *)
Definition verificationPath (restaurantId : string) : string :=
  "restaurants/" +:+ restaurantId +:+ "/verification".

(** [pendingDocs.delete(v)] on a [Set] of strings kept in insertion order. *)
Definition set_delete (v : Value) (s : list string) : list string :=
  match v with
  | VStr t => filter (fun x => x ≠ t) s
  | _ => s
  end.

(** The body of the [forEach] of updateVerificationStatus. *)
Definition scan (acc : list string * list Value) (doc : Fields)
  : list string * list Value :=
  let '(pendingDocs, rejectedDocs) := acc in
  if is_str "approved" (prop doc "status") then
    (set_delete (prop doc "type") pendingDocs, rejectedDocs)
  else if is_str "rejected" (prop doc "status") then
    (pendingDocs, (rejectedDocs ++ [prop doc "type"])%list)
  else acc.

(** The record updateVerificationStatus builds from the documents and
    the time it reads. *)
Definition recompute (documents : list Fields) (t : Z) : VerificationStatus :=
  let '(pendingDocs, rejectedDocs) := fold_left scan documents (requiredTypes, []) in
  {| isVerified := (length pendingDocs =? 0)%nat && (length rejectedDocs =? 0)%nat;
     documentsSubmitted := (0 <? length documents)%nat;
     pendingDocuments := pendingDocs;
     rejectedDocuments := rejectedDocs;
     lastUpdated := toISOString t |}.

Definition defaultStatus (t : Z) : VerificationStatus :=
  {| isVerified := false;
     documentsSubmitted := false;
     pendingDocuments := ["business_license"; "food_permit"; "identity"];
     rejectedDocuments := [];
     lastUpdated := toISOString t |}.

(** [snapshot.docs.map(doc => ({ id: doc.id, ...doc.data() }))
      .filter(doc => doc.type)] *)
Definition documents_of (snapshot : list (string * Fields)) : list Fields :=
  filter (fun doc => truthy (prop doc "type"))
    (map (fun d => spread {[ "id" := VStr (fst d) ]} (snd d)) snapshot).

Module verificationService.
Section Service.
Variable env : Env.

Definition getVerificationStatus (restaurantId : string) : M Fields :=
  logged "Error getting verification status:"
    (let statusRef := (verificationPath restaurantId, "status") in
     let* statusDoc := getDoc env statusRef in
     match statusDoc with
     | None =>
         let* t := now env in
         let* _ := setDoc env statusRef (status_fields (defaultStatus t)) in
         ret (status_fields (defaultStatus t))
     | Some data => ret data
     end).

Definition getDocuments (restaurantId : string) : M (list Fields) :=
  logged "Error getting verification documents:"
    (let* snapshot := getDocs env (verificationPath restaurantId) in
     ret (documents_of snapshot)).

Definition updateVerificationStatus (restaurantId : string) : M VerificationStatus :=
  logged "Error updating verification status:"
    (let* documents := getDocuments restaurantId in
     let* t := now env in
     let status := recompute documents t in
     let* _ := setDoc env (verificationPath restaurantId, "status") (status_fields status) in
     ret status).

Definition uploadDocument (restaurantId : string) (file : File) (type : string)
    (expiryDate : option string) : M VerificationDocument :=
  logged "Error uploading document:"
    (let* t := now env in
     let storageRef :=
       "restaurants/" +:+ restaurantId +:+ "/verification/" +:+ type +:+ "_"
         +:+ string_of_Z t in
     let* _ := uploadBytes env storageRef file in
     let* fileUrl := getDownloadURL env storageRef in
     let* docId := newId env in
     let docRef := (verificationPath restaurantId, docId) in
     let* t' := now env in
     let verificationDoc :=
       {| id := docId; type := type; status := "pending"; fileUrl := fileUrl;
          fileName := name file; uploadedAt := toISOString t';
          expiryDate := expiryDate |} in
     let* _ := setDoc env docRef (document_fields verificationDoc) in
     let* _ := updateVerificationStatus restaurantId in
     ret verificationDoc).

Definition deleteDocument (restaurantId : string) (document : VerificationDocument)
    : M unit :=
  logged "Error deleting document:"
    (let storageRef := locationOf env (fileUrl document) in
     let* _ := deleteObject env storageRef in
     let* _ := deleteDoc env (verificationPath restaurantId, id document) in
     let* _ := updateVerificationStatus restaurantId in
     ret tt).
End Service.
End verificationService.

(** ** src/pages/RestaurantSettings.tsx: the settings page *)

Module RestaurantSettings.

(** The state of the component: [settings] and the four flags and
    messages kept with [useState]. *)
Record PageState : Type := {
  settings : Fields;
  loading : bool;
  saving : bool;
  error : string;
  success : string
}.

Definition initial : PageState :=
  {| settings :=
       {[ "restaurantName" := VStr ""; "description" := VStr "";
          "cuisine" := VStr ""; "openingHours" := VStr "";
          "closingHours" := VStr ""; "address" := VStr ""; "phone" := VStr "" ]};
     loading := true;
     saving := false;
     error := "";
     success := "" |}.

(** The inputs of the form; each is marked [required]. *)
Definition formFields : list string :=
  ["restaurantName"; "description"; "cuisine"; "openingHours"; "closingHours";
   "address"; "phone"].

(** [setSettings(prev => ({ ...prev, [name]: value }))] *)
Definition handleChange (name value : string) (p : PageState) : PageState :=
  {| settings := spread (settings p) {[ name := VStr value ]};
     loading := loading p; saving := saving p;
     error := error p; success := success p |}.

Section Page.
Variable env : Env.

(** The effect run on mount; [user] is [None] when nobody is signed in,
    otherwise [user.uid]. *)
Definition fetchSettings (user : option string) (p : PageState) (w : World)
    : PageState * World :=
  match user with
  | None => (p, w)
  | Some uid =>
      match getDoc env ("users", uid) w with
      | (Ok docSnap, w') =>
          ({| settings := match docSnap with
                          | Some data => data
                          | None => settings p
                          end;
              loading := false; saving := saving p;
              error := error p; success := success p |}, w')
      | (Threw err, w') =>
          ({| settings := settings p;
              loading := false; saving := saving p;
              error := "Failed to load restaurant settings";
              success := success p |},
           snd (console_error "Error fetching settings:" err w'))
      end
  end.

Definition handleSubmit (user : option string) (p : PageState) (w : World)
    : PageState * World :=
  match user with
  | None => (p, w)
  | Some uid =>
      let attempt :=
        let* t := now env in
        updateDoc env ("users", uid)
          (spread (settings p) {[ "lastUpdated" := VStr (toISOString t) ]}) in
      match attempt w with
      | (Ok _, w') =>
          ({| settings := settings p; loading := loading p; saving := false;
              error := ""; success := "Settings updated successfully" |}, w')
      | (Threw err, w') =>
          ({| settings := settings p; loading := loading p; saving := false;
              error := "Failed to update settings"; success := "" |},
           snd (console_error "Error updating settings:" err w'))
      end
  end.
End Page.
End RestaurantSettings.

(** * What the properties are stated with *)

(** Document [doc] is approved and of type [t]. *)
Definition approves (t : string) (doc : Fields) : bool :=
  is_str "approved" (prop doc "status") && is_str t (prop doc "type").

Definition has_approved (documents : list Fields) (t : string) : Prop :=
  Exists (fun doc => approves t doc) documents.

#[global] Instance has_approved_dec documents t : Decision (has_approved documents t).
Proof. unfold has_approved. apply _. Defined.

Definition is_rejected (doc : Fields) : bool := is_str "rejected" (prop doc "status").

Definition is_nil {A} (l : list A) : bool :=
  match l with
  | [] => true
  | _ :: _ => false
  end.

(** None of the [k] requests from the [n]-th on is refused. *)
Fixpoint quiet (env : Env) (n k : nat) : Prop :=
  match k with
  | O => True
  | S k' => fault env n = None /\ quiet env (S n) k'
  end.

Definition head_docs (c : string) (r : DocRef) (f : Fields) : list Fields :=
  if decide (fst r = c) then
    if truthy (prop f "type") then [spread {[ "id" := VStr (snd r) ]} f] else []
  else [].

(** A [type] as VerificationDocument declares it: when the property is
    there it holds a string that is not empty. *)
Definition typed_type (data : Fields) : Prop :=
  forall v, data !! "type" = Some v -> exists s, v = VStr s /\ s ≠ "".

(** A request that was not refused and did not fail. *)
Definition granted (q : Request * option Error) : Prop := snd q = None.

(** [isVerified == (pendingDocuments empty AND rejectedDocuments empty)] *)
Definition status_invariant (st : VerificationStatus) : Prop :=
  isVerified st = is_nil (pendingDocuments st) && is_nil (rejectedDocuments st).

(** A request that, if it writes a VerificationStatus, writes one with the
    invariant. *)
Definition good_write (q : Request * option Error) : Prop :=
  forall r st, fst q = SetDoc r (status_fields st) -> status_invariant st.

(** What a run adds to the two logs: requests granted up to the one, if
    any, whose error is thrown, and that error on the console with each
    message. *)
Definition sound_run {A} (w : World) (res : Result A * World) (own : list string) : Prop :=
  exists new,
    requests (snd res) = new ++ requests w
    /\ Forall good_write new
    /\ match fst res with
       | Ok _ => Forall granted new /\ console (snd res) = console w
       | Threw e =>
           exists q earlier msgs,
             new = (q, Some e) :: earlier
             /\ Forall granted earlier
             /\ console (snd res) = map (fun m => (m, e)) (own ++ msgs) ++ console w
       end.

Definition sound {A} (m : M A) : Prop := forall w, sound_run w (m w) [].

(** The same for a method, which reports under its own message first. *)
Definition sound_method {A} (msg : string) (m : M A) : Prop :=
  forall w, sound_run w (m w) [msg].

(** A call of a method of the service. *)
Inductive Call : Type :=
  | UploadDocument (restaurantId : string) (file : File) (ty : string)
      (expiry : option string)
  | GetVerificationStatus (restaurantId : string)
  | GetDocuments (restaurantId : string)
  | UpdateVerificationStatus (restaurantId : string)
  | DeleteDocument (restaurantId : string) (document : VerificationDocument).

(** The message the method gives to [console.error]. *)
Definition message (c : Call) : string :=
  match c with
  | UploadDocument _ _ _ _ => "Error uploading document:"
  | GetVerificationStatus _ => "Error getting verification status:"
  | GetDocuments _ => "Error getting verification documents:"
  | UpdateVerificationStatus _ => "Error updating verification status:"
  | DeleteDocument _ _ => "Error deleting document:"
  end.

Definition thrown {A} (r : Result A * World) : option Error * World :=
  match r with
  | (Ok _, w) => (None, w)
  | (Threw e, w) => (Some e, w)
  end.

(** The error a call throws, if it throws, and the world it leaves. *)
Definition call (env : Env) (c : Call) (w : World) : option Error * World :=
  match c with
  | UploadDocument rid file ty expiry =>
      thrown (verificationService.uploadDocument env rid file ty expiry w)
  | GetVerificationStatus rid =>
      thrown (verificationService.getVerificationStatus env rid w)
  | GetDocuments rid => thrown (verificationService.getDocuments env rid w)
  | UpdateVerificationStatus rid =>
      thrown (verificationService.updateVerificationStatus env rid w)
  | DeleteDocument rid d => thrown (verificationService.deleteDocument env rid d w)
  end.

(** The records of the store that are not in collection [c], in order. *)
Definition outside (c : string) (db : Firestore) : Firestore :=
  filter (fun e => fst (fst e) ≠ c) db.

(** A computation that leaves every record outside collection [c] as it
    is, whatever happens on the way. *)
Definition confined {A} (c : string) (m : M A) : Prop :=
  forall w, outside c (firestore (snd (m w))) = outside c (firestore w).

(** The restaurant a call is made for. *)
Definition restaurant_of (c : Call) : string :=
  match c with
  | UploadDocument rid _ _ _ => rid
  | GetVerificationStatus rid => rid
  | GetDocuments rid => rid
  | UpdateVerificationStatus rid => rid
  | DeleteDocument rid _ => rid
  end.

(** Every input of the form holds a non-empty string. *)
Definition populated (p : RestaurantSettings.PageState) : Prop :=
  forall k, k ∈ RestaurantSettings.formFields ->
    exists s, RestaurantSettings.settings p !! k = Some (VStr s) /\ s ≠ "".

(** C7 as the specification words it: with the required fields populated
    and both requests granted, a submit followed by a read (on a freshly
    mounted page) gives back the submitted fields, and a [lastUpdated]
    later than the one stored before. *)
Definition submit_round_trips : Prop :=
  forall (env : Env) (uid : string) (p : RestaurantSettings.PageState) (w : World),
    populated p ->
    quiet env (length (requests w)) 2 ->
    let w1 := snd (RestaurantSettings.handleSubmit env (Some uid) p w) in
    let p2 :=
      fst (RestaurantSettings.fetchSettings env (Some uid)
             RestaurantSettings.initial w1) in
    (forall k, k ∈ RestaurantSettings.formFields ->
       RestaurantSettings.settings p2 !! k = RestaurantSettings.settings p !! k)
    /\ exists t,
         RestaurantSettings.settings p2 !! "lastUpdated" = Some (VStr (toISOString t))
         /\ forall old t0,
              fs_get ("users", uid) (firestore w) = Some old ->
              old !! "lastUpdated" = Some (VStr (toISOString t0)) -> t0 < t.

(** ** Sample runs *)

(** An environment in which nothing is refused; the clock advances one
    millisecond per reading from 2023-11-14T22:13:20Z; the database has
    its default set-up. *)
Definition calm : Env :=
  {| fault := fun _ => None;
     clock := fun n => 1700000000000 + Z.of_nat n;
     autoId := fun n => "vdoc" +:+ pad 16 (Z.of_nat n);
     downloadURL := fun loc => "https://storage.example/o/" +:+ loc;
     locationOf := fun url =>
       if String.prefix "https://storage.example/o/" url
       then substring 26 (String.length url - 26) url
       else url;
     ignoreUndefinedProperties := false |}.

(** [calm], except that the request number [n] is refused. *)
Definition refusing (n : nat) (e : Error) : Env :=
  {| fault := fun k => if (k =? n)%nat then Some e else None;
     clock := clock calm; autoId := autoId calm;
     downloadURL := downloadURL calm; locationOf := locationOf calm;
     ignoreUndefinedProperties := false |}.

(** [calm], with a database that ignores undefined properties. *)
Definition lenient : Env :=
  {| fault := fault calm; clock := clock calm; autoId := autoId calm;
     downloadURL := downloadURL calm; locationOf := locationOf calm;
     ignoreUndefinedProperties := true |}.

Definition empty_world : World :=
  {| firestore := []; storage := ∅; console := []; requests := [];
     ticks := 0; drawn := 0 |}.

Definition sample_file : File := {| name := "scan.pdf"; content := [] |}.

Definition sample_document (i ty st : string) : VerificationDocument :=
  {| id := i; type := ty; status := st;
     fileUrl := "https://storage.example/o/restaurants/r1/verification/" +:+ ty +:+ "_1";
     fileName := "scan.pdf"; uploadedAt := "2023-11-14T22:13:20.000Z";
     expiryDate := Some "2026-12-31" |}.

Definition stored_document (i ty st : string) : DocRef * Fields :=
  ((verificationPath "r1", i), document_fields (sample_document i ty st)).

(** A restaurant with one approved document of each required type, its
    status record, and the blob of the identity document. *)
Definition verified_world : World :=
  {| firestore :=
       [ stored_document "a" "business_license" "approved";
         stored_document "b" "food_permit" "approved";
         ((verificationPath "r1", "status"),
          status_fields {| isVerified := true; documentsSubmitted := true;
                           pendingDocuments := []; rejectedDocuments := [];
                           lastUpdated := "2023-11-14T22:13:20.000Z" |});
         stored_document "c" "identity" "approved" ];
     storage := {[ "restaurants/r1/verification/identity_1" := sample_file ]};
     console := []; requests := []; ticks := 0; drawn := 0 |}.

(** The same with two rejected identity documents added: an approved and
    two rejected documents of one type. *)
Definition contested_world : World :=
  {| firestore := firestore verified_world
                    ++ [ stored_document "d" "identity" "rejected";
                         stored_document "e" "identity" "rejected" ];
     storage := storage verified_world;
     console := []; requests := []; ticks := 0; drawn := 0 |}.

(** A collection in which one record has an empty [type]. *)
Definition untyped_world : World :=
  {| firestore := [ stored_document "a" "identity" "pending";
                    stored_document "x" "" "pending" ];
     storage := ∅; console := []; requests := []; ticks := 0; drawn := 0 |}.

Definition filled_page : RestaurantSettings.PageState :=
  RestaurantSettings.handleChange "phone" "08012345678"
    (RestaurantSettings.handleChange "address" "12 Market Road"
      (RestaurantSettings.handleChange "closingHours" "22:00"
        (RestaurantSettings.handleChange "openingHours" "08:00"
          (RestaurantSettings.handleChange "cuisine" "Nigerian"
            (RestaurantSettings.handleChange "description" "Home cooking"
              (RestaurantSettings.handleChange "restaurantName" "Mama Put"
                 RestaurantSettings.initial)))))).

(** A user record made at sign-up, before any settings were saved. *)
Definition user_world : World :=
  {| firestore := [(("users", "u1"),
                    {[ "email" := VStr "owner@example.com";
                       "role" := VStr "restaurant";
                       "lastUpdated" := VStr "2023-11-14T22:13:20.000Z" ]})];
     storage := ∅; console := []; requests := []; ticks := 0; drawn := 0 |}.

(** [verified_world] with its records in another order. *)
Definition shuffled_world : World :=
  {| firestore := rev (firestore verified_world);
     storage := storage verified_world;
     console := []; requests := []; ticks := 0; drawn := 0 |}.

(** * Properties *)

(** ** Values *)

Lemma is_str_true (lit : string) (v : Value) : is_str lit v = true <-> v = VStr lit.
Proof.
  destruct v; simpl; try (split; [discriminate | intros [=]]).
  rewrite String.eqb_eq. split; [intros -> | intros [= ->]]; reflexivity.
Qed.

Lemma is_str_Is_true (lit : string) (v : Value) : is_str lit v <-> v = VStr lit.
Proof. rewrite Is_true_true. apply is_str_true. Qed.

Lemma is_str_other (a b : string) (v : Value) :
  a ≠ b -> is_str a v = true -> is_str b v = false.
Proof.
  intros Hab Ha. apply is_str_true in Ha. subst v. simpl.
  apply String.eqb_neq. exact Hab.
Qed.

(** ** Objects with undefined properties *)

Lemma strip_undefined_defined (o : Fields) : defined_only o -> strip_undefined o = o.
Proof.
  intros Hdef. unfold strip_undefined. apply map_filter_id.
  intros k v Hk. exact (Hdef k v Hk).
Qed.

Lemma lookup_strip_undefined (o : Fields) (k : string) (v : Value) :
  o !! k = Some v -> is_undef v = false -> strip_undefined o !! k = Some v.
Proof.
  intros Hk Hv. unfold strip_undefined. apply map_lookup_filter_Some. auto.
Qed.

Lemma lookup_strip_undefined_None (o : Fields) (k : string) :
  o !! k = None -> strip_undefined o !! k = None.
Proof.
  intros Hk. unfold strip_undefined. apply map_lookup_filter_None. left. exact Hk.
Qed.

Lemma status_fields_defined (st : VerificationStatus) : defined_only (status_fields st).
Proof.
  unfold defined_only, status_fields.
  repeat (apply map_Forall_insert_2; [reflexivity |]).
  apply map_Forall_empty.
Qed.

Lemma document_fields_defined (d : VerificationDocument) :
  is_Some (expiryDate d) -> defined_only (document_fields d).
Proof.
  intros [e He]. unfold defined_only, document_fields. rewrite He.
  repeat (apply map_Forall_insert_2; [reflexivity |]).
  apply map_Forall_empty.
Qed.

Lemma document_fields_undefined (d : VerificationDocument) :
  expiryDate d = None -> ¬ defined_only (document_fields d).
Proof.
  intros He Hdef. unfold document_fields in Hdef. rewrite He in Hdef.
  specialize (Hdef "expiryDate" VUndef). rewrite lookup_insert_eq in Hdef.
  specialize (Hdef eq_refl). discriminate.
Qed.

(** ** What the scan of updateVerificationStatus computes *)

Lemma approves_spec (t : string) (doc : Fields) :
  approves t doc <-> prop doc "status" = VStr "approved" /\ prop doc "type" = VStr t.
Proof.
  unfold approves. rewrite andb_True, !is_str_Is_true. reflexivity.
Qed.

Lemma has_approved_spec (documents : list Fields) (t : string) :
  has_approved documents t <->
  exists doc, doc ∈ documents /\
    prop doc "status" = VStr "approved" /\ prop doc "type" = VStr t.
Proof.
  unfold has_approved. rewrite Exists_exists.
  split; intros (doc & Hin & H); exists doc; (split; [exact Hin |]);
    apply approves_spec; exact H.
Qed.

Lemma has_approved_cons (doc : Fields) (docs : list Fields) (t : string) :
  has_approved (doc :: docs) t <-> approves t doc \/ has_approved docs t.
Proof. unfold has_approved. apply Exists_cons. Qed.

Lemma approves_type (doc : Fields) (t s : string) :
  is_str "approved" (prop doc "status") = true ->
  prop doc "type" = VStr s ->
  approves t doc <-> s = t.
Proof.
  intros Ha Ht. unfold approves. rewrite Ha, Ht. simpl.
  rewrite Is_true_true. apply String.eqb_eq.
Qed.

Lemma approves_not_string (doc : Fields) (t : string) :
  (forall s, prop doc "type" ≠ VStr s) -> ¬ approves t doc.
Proof.
  intros Hns H. apply approves_spec in H as [_ H]. exact (Hns t H).
Qed.

Lemma approves_not_approved (doc : Fields) (t : string) :
  is_str "approved" (prop doc "status") = false -> ¬ approves t doc.
Proof. intros Ha. unfold approves. rewrite Ha. simpl. tauto. Qed.

Lemma set_delete_approved (doc : Fields) (docs : list Fields) (p : list string) :
  is_str "approved" (prop doc "status") = true ->
  filter (fun t => ¬ has_approved docs t) (set_delete (prop doc "type") p)
  = filter (fun t => ¬ has_approved (doc :: docs) t) p.
Proof.
  intros Ha. unfold set_delete.
  destruct (prop doc "type") as [| | | |s| |] eqn:Ht;
    try (apply list_filter_iff; intros t; rewrite has_approved_cons;
         assert (¬ approves t doc)
           by (apply approves_not_string; rewrite Ht; discriminate);
         tauto).
  rewrite list_filter_filter. apply list_filter_iff. intros t.
  rewrite has_approved_cons, (approves_type doc t s Ha Ht).
  split.
  - intros [Hn Hne] [Heq | Hex]; [congruence | tauto].
  - intros Hn. split; [tauto | intros ->; tauto].
Qed.

Lemma filter_all {A} (P : A -> Prop) `{forall x, Decision (P x)} (l : list A) :
  (forall x, x ∈ l -> P x) -> filter P l = l.
Proof.
  induction l as [| x l IH]; intros Hall; [reflexivity |].
  rewrite filter_cons_True by (apply Hall; left).
  f_equal. apply IH. intros y Hy. apply Hall. right. exact Hy.
Qed.

Lemma scan_eq (p : list string) (r : list Value) (doc : Fields) :
  scan (p, r) doc
  = if is_str "approved" (prop doc "status") then (set_delete (prop doc "type") p, r)
    else if is_str "rejected" (prop doc "status") then (p, r ++ [prop doc "type"])
    else (p, r).
Proof. reflexivity. Qed.

Lemma scan_fold (documents : list Fields) (p : list string) (r : list Value) :
  fold_left scan documents (p, r)
  = (filter (fun t => ¬ has_approved documents t) p,
     r ++ map (fun doc => prop doc "type") (filter (fun doc => is_rejected doc) documents)).
Proof.
  revert p r. induction documents as [| doc docs IH]; intros p r.
  - simpl. rewrite app_nil_r. f_equal.
    symmetry. apply filter_all. intros t _ H.
    unfold has_approved in H. apply Exists_nil in H. exact H.
  - cbn [fold_left]. rewrite scan_eq.
    destruct (is_str "approved" (prop doc "status")) eqn:Ha.
    + rewrite IH, set_delete_approved by exact Ha.
      rewrite filter_cons_False; [reflexivity |].
      unfold is_rejected.
      rewrite (is_str_other "approved" "rejected") by (done || exact Ha).
      simpl. tauto.
    + assert (Hsame : forall t, has_approved (doc :: docs) t <-> has_approved docs t).
      { intros t. rewrite has_approved_cons.
        pose proof (approves_not_approved doc t Ha). tauto. }
      destruct (is_str "rejected" (prop doc "status")) eqn:Hr; rewrite IH.
      * rewrite filter_cons_True by (unfold is_rejected; rewrite Hr; exact I).
        simpl. rewrite <- app_assoc. simpl. f_equal.
        apply list_filter_iff. intros t. rewrite Hsame. reflexivity.
      * rewrite filter_cons_False by (unfold is_rejected; rewrite Hr; simpl; tauto).
        f_equal. apply list_filter_iff. intros t. rewrite Hsame. reflexivity.
Qed.

Lemma recompute_pending (documents : list Fields) (t : Z) :
  pendingDocuments (recompute documents t)
  = filter (fun ty => ¬ has_approved documents ty) requiredTypes.
Proof. unfold recompute. rewrite scan_fold. reflexivity. Qed.

Lemma recompute_rejected (documents : list Fields) (t : Z) :
  rejectedDocuments (recompute documents t)
  = map (fun doc => prop doc "type") (filter (fun doc => is_rejected doc) documents).
Proof. unfold recompute. rewrite scan_fold. reflexivity. Qed.

Lemma length_is_nil {A} (l : list A) : (length l =? 0)%nat = is_nil l.
Proof. destruct l; reflexivity. Qed.

Lemma recompute_isVerified (documents : list Fields) (t : Z) :
  isVerified (recompute documents t)
  = is_nil (pendingDocuments (recompute documents t))
    && is_nil (rejectedDocuments (recompute documents t)).
Proof.
  unfold recompute. destruct (fold_left scan documents (requiredTypes, [])) as [p r].
  simpl. rewrite !length_is_nil. reflexivity.
Qed.

Lemma recompute_documentsSubmitted (documents : list Fields) (t : Z) :
  documentsSubmitted (recompute documents t) = negb (is_nil documents).
Proof.
  unfold recompute. destruct (fold_left scan documents (requiredTypes, [])) as [p r].
  simpl. destruct documents; reflexivity.
Qed.

Lemma recompute_lastUpdated (documents : list Fields) (t : Z) :
  lastUpdated (recompute documents t) = toISOString t.
Proof.
  unfold recompute. destruct (fold_left scan documents (requiredTypes, [])) as [p r].
  reflexivity.
Qed.

(** ** The document store *)

Lemma fs_get_set (r : DocRef) (f : Fields) (db : Firestore) :
  fs_get r (fs_set r f db) = Some f.
Proof.
  induction db as [| [r' f'] db IH]; simpl.
  - rewrite decide_True by reflexivity. reflexivity.
  - destruct (decide (r' = r)) as [-> | Hne]; simpl.
    + rewrite decide_True by reflexivity. reflexivity.
    + rewrite decide_False by exact Hne. exact IH.
Qed.

Lemma fs_get_set_other (r r0 : DocRef) (f : Fields) (db : Firestore) :
  r ≠ r0 -> fs_get r0 (fs_set r f db) = fs_get r0 db.
Proof.
  intros Hne. induction db as [| [r' f'] db IH]; simpl.
  - rewrite decide_False by exact Hne. reflexivity.
  - destruct (decide (r' = r)) as [-> | Hne']; simpl.
    + rewrite !decide_False by exact Hne. reflexivity.
    + destruct (decide (r' = r0)); [reflexivity | exact IH].
Qed.

Lemma fs_get_delete (r : DocRef) (db : Firestore) : fs_get r (fs_delete r db) = None.
Proof.
  unfold fs_delete. induction db as [| [r' f'] db IH]; [reflexivity |].
  destruct (decide (r' = r)) as [-> | Hne].
  - rewrite filter_cons_False by (simpl; tauto). exact IH.
  - rewrite filter_cons_True by exact Hne. simpl.
    rewrite decide_False by exact Hne. exact IH.
Qed.

Lemma fs_query_cons (c : string) (r : DocRef) (f : Fields) (db : Firestore) :
  fs_query c ((r, f) :: db)
  = if decide (fst r = c) then (snd r, f) :: fs_query c db else fs_query c db.
Proof.
  unfold fs_query. destruct (decide (fst r = c)) as [Heq | Hne].
  - rewrite filter_cons_True by exact Heq. reflexivity.
  - rewrite filter_cons_False by exact Hne. reflexivity.
Qed.


Lemma fs_query_elem (c i : string) (f : Fields) (db : Firestore) :
  (i, f) ∈ fs_query c db <-> ((c, i), f) ∈ db.
Proof.
  induction db as [| [[c' i'] f'] db IH].
  - unfold fs_query. simpl. split; intros H; inversion H.
  - rewrite fs_query_cons. simpl fst. simpl snd.
    destruct (decide (c' = c)) as [-> | Hc].
    + rewrite !elem_of_cons, IH. split; (intros [H | H]; [left | right; exact H]);
        congruence.
    + rewrite elem_of_cons, IH. split; [tauto |]. intros [H | H]; [congruence | exact H].
Qed.

Lemma fs_get_elem (r : DocRef) (f : Fields) (db : Firestore) :
  fs_get r db = Some f -> (r, f) ∈ db.
Proof.
  induction db as [| [r' f'] db IH]; simpl; [discriminate |].
  destruct (decide (r' = r)) as [-> | Hne].
  - intros [= ->]. left.
  - intros H. right. apply IH. exact H.
Qed.

(** ** Running requests *)

Section Steps.
Variable env : Env.

Lemma request_refused {A} (q : Request) (perform : World -> Result A * World)
    (w : World) (e : Error) :
  fault env (length (requests w)) = Some e ->
  request env q perform w = (Threw e, log_request q (Some e) w).
Proof. intros H. unfold request. rewrite H. reflexivity. Qed.

Lemma getDoc_ok (r : DocRef) (w : World) :
  fault env (length (requests w)) = None ->
  getDoc env r w = (Ok (fs_get r (firestore w)), log_request (GetDoc r) None w).
Proof. intros H. unfold getDoc, request. rewrite H. reflexivity. Qed.

Lemma setDoc_ok (r : DocRef) (data : Fields) (w : World) :
  fault env (length (requests w)) = None ->
  defined_only data ->
  setDoc env r data w
  = (Ok tt, log_request (SetDoc r data) None
              (set_firestore (fs_set r data (firestore w)) w)).
Proof.
  intros H Hdef. unfold setDoc, request. rewrite H, decide_True by exact Hdef.
  reflexivity.
Qed.

Lemma setDoc_stored (r : DocRef) (data : Fields) (w : World) :
  fault env (length (requests w)) = None ->
  defined_only data \/ ignoreUndefinedProperties env = true ->
  setDoc env r data w
  = (Ok tt, log_request (SetDoc r data) None
              (set_firestore (fs_set r (strip_undefined data) (firestore w)) w)).
Proof.
  intros H Hacc. unfold setDoc, request. rewrite H.
  destruct (decide (defined_only data)) as [Hdef | Hundef].
  - rewrite strip_undefined_defined by exact Hdef. reflexivity.
  - destruct Hacc as [Hdef | Hign]; [contradiction |]. rewrite Hign. reflexivity.
Qed.

Lemma setDoc_invalid (r : DocRef) (data : Fields) (w : World) :
  fault env (length (requests w)) = None ->
  ¬ defined_only data ->
  ignoreUndefinedProperties env = false ->
  setDoc env r data w
  = (Threw (FirebaseError "invalid-argument"),
     log_request (SetDoc r data) (Some (FirebaseError "invalid-argument")) w).
Proof.
  intros H Hundef Hign. unfold setDoc, request.
  rewrite H, decide_False, Hign by exact Hundef. reflexivity.
Qed.

Lemma getDocs_ok (c : string) (w : World) :
  fault env (length (requests w)) = None ->
  getDocs env c w = (Ok (fs_query c (firestore w)), log_request (GetDocs c) None w).
Proof. intros H. unfold getDocs, request. rewrite H. reflexivity. Qed.

Lemma deleteDoc_ok (r : DocRef) (w : World) :
  fault env (length (requests w)) = None ->
  deleteDoc env r w
  = (Ok tt, log_request (DeleteDoc r) None
              (set_firestore (fs_delete r (firestore w)) w)).
Proof. intros H. unfold deleteDoc, request. rewrite H. reflexivity. Qed.

Lemma uploadBytes_ok (loc : string) (file : File) (w : World) :
  fault env (length (requests w)) = None ->
  uploadBytes env loc file w
  = (Ok tt, log_request (UploadBytes loc file) None
              (set_storage (<[loc := file]> (storage w)) w)).
Proof. intros H. unfold uploadBytes, request. rewrite H. reflexivity. Qed.

Lemma getDownloadURL_ok (loc : string) (w : World) :
  fault env (length (requests w)) = None ->
  is_Some (storage w !! loc) ->
  getDownloadURL env loc w
  = (Ok (downloadURL env loc), log_request (GetDownloadURL loc) None w).
Proof.
  intros H [file Hf]. unfold getDownloadURL, request. rewrite H, Hf. reflexivity.
Qed.

Lemma deleteObject_ok (loc : string) (w : World) :
  fault env (length (requests w)) = None ->
  is_Some (storage w !! loc) ->
  deleteObject env loc w
  = (Ok tt, log_request (DeleteObject loc) None
              (set_storage (delete loc (storage w)) w)).
Proof.
  intros H [file Hf]. unfold deleteObject, request. rewrite H, Hf. reflexivity.
Qed.

Lemma updateDoc_ok (r : DocRef) (data old : Fields) (w : World) :
  fault env (length (requests w)) = None ->
  fs_get r (firestore w) = Some old ->
  updateDoc env r data w
  = (Ok tt, log_request (UpdateDoc r data) None
              (set_firestore (fs_set r (spread old data) (firestore w)) w)).
Proof. intros H Hold. unfold updateDoc, request. rewrite H, Hold. reflexivity. Qed.

Lemma updateDoc_missing (r : DocRef) (data : Fields) (w : World) :
  fault env (length (requests w)) = None ->
  fs_get r (firestore w) = None ->
  updateDoc env r data w
  = (Threw (FirebaseError "not-found"),
     log_request (UpdateDoc r data) (Some (FirebaseError "not-found")) w).
Proof. intros H Hold. unfold updateDoc, request. rewrite H, Hold. reflexivity. Qed.
End Steps.

Arguments verificationPath : simpl never.
Arguments status_fields : simpl never.
Arguments document_fields : simpl never.
Arguments recompute : simpl never.
Arguments defaultStatus : simpl never.
Arguments documents_of : simpl never.
Arguments toISOString : simpl never.
Arguments string_of_Z : simpl never.
Arguments fs_get : simpl never.
Arguments fs_set : simpl never.
Arguments fs_delete : simpl never.
Arguments fs_query : simpl never.

(** ** What each method does when no request is refused *)

Section Runs.
Import verificationService.
Variable env : Env.

Lemma getDocuments_run (restaurantId : string) (w : World) :
  quiet env (length (requests w)) 1 ->
  getDocuments env restaurantId w
  = (Ok (documents_of (fs_query (verificationPath restaurantId) (firestore w))),
     log_request (GetDocs (verificationPath restaurantId)) None w).
Proof.
  intros [H _]. unfold getDocuments, logged, try_catch, bind.
  rewrite getDocs_ok by exact H. reflexivity.
Qed.

Lemma updateVerificationStatus_run (restaurantId : string) (w : World) :
  quiet env (length (requests w)) 2 ->
  let c := verificationPath restaurantId in
  let st := recompute (documents_of (fs_query c (firestore w))) (clock env (ticks w)) in
  updateVerificationStatus env restaurantId w
  = (Ok st,
     {| firestore := fs_set (c, "status") (status_fields st) (firestore w);
        storage := storage w;
        console := console w;
        requests := (SetDoc (c, "status") (status_fields st), None)
                      :: (GetDocs c, None) :: requests w;
        ticks := S (ticks w);
        drawn := drawn w |}).
Proof.
  intros (H0 & H1 & _) c st.
  unfold updateVerificationStatus, logged, try_catch, bind.
  rewrite getDocuments_run by (split; [exact H0 | exact I]).
  unfold now. simpl.
  rewrite setDoc_ok by (exact H1 || apply status_fields_defined). reflexivity.
Qed.
End Runs.

(** ** Lists *)

Lemma is_nil_true {A} (l : list A) : is_nil l = true <-> l = [].
Proof. destruct l; simpl; split; congruence. Qed.

Lemma filter_nil_iff {A} (P : A -> Prop) `{forall x, Decision (P x)} (l : list A) :
  filter P l = [] <-> forall x, x ∈ l -> ¬ P x.
Proof.
  induction l as [| x l IH].
  - split; [intros _ y Hy; inversion Hy | reflexivity].
  - destruct (decide (P x)) as [Hx | Hx].
    + rewrite filter_cons_True by exact Hx. split; [discriminate |].
      intros Hall. exfalso. apply (Hall x); [left | exact Hx].
    + rewrite filter_cons_False by exact Hx. rewrite IH. split.
      * intros Hall y Hy. apply elem_of_cons in Hy as [-> | Hy]; [exact Hx | auto].
      * intros Hall y Hy. apply Hall. right. exact Hy.
Qed.

Lemma map_nil_iff {A B} (f : A -> B) (l : list A) : map f l = [] <-> l = [].
Proof. destruct l; simpl; split; congruence. Qed.

(** ** isVerified, pendingDocuments, rejectedDocuments, documentsSubmitted *)

Lemma recompute_verified_iff (documents : list Fields) (t : Z) :
  isVerified (recompute documents t) = true <->
  (forall ty, ty ∈ requiredTypes ->
     exists doc, doc ∈ documents /\
       prop doc "type" = VStr ty /\ prop doc "status" = VStr "approved")
  /\ (forall doc, doc ∈ documents -> prop doc "status" ≠ VStr "rejected").
Proof.
  rewrite recompute_isVerified, andb_true_iff, !is_nil_true.
  rewrite recompute_pending, recompute_rejected, map_nil_iff, !filter_nil_iff.
  split; intros [Hp Hr]; split.
  - intros ty Hty. specialize (Hp ty Hty).
    destruct (decide (has_approved documents ty)) as [Ha | Hn]; [| tauto].
    apply has_approved_spec in Ha as (doc & Hin & Hs & Ht). eauto.
  - intros doc Hin Hs. apply (Hr doc Hin). unfold is_rejected.
    apply is_str_Is_true. exact Hs.
  - intros ty Hty Hn. apply Hn. apply has_approved_spec.
    destruct (Hp ty Hty) as (doc & Hin & Ht & Hs). eauto.
  - intros doc Hin Hrej. apply (Hr doc Hin). apply is_str_Is_true. exact Hrej.
Qed.

Section StatusTheorems.
Import verificationService.
Variable env : Env.


End StatusTheorems.

(** ** The objects getDocuments builds *)

Lemma prop_spread_id (i : string) (data : Fields) (k : string) :
  k ≠ "id" -> spread {[ "id" := VStr i ]} data !! k = data !! k.
Proof.
  intros Hk. unfold spread. apply lookup_union_l.
  apply lookup_singleton_ne. congruence.
Qed.

Lemma spread_id_same (i : string) (data : Fields) :
  data !! "id" = Some (VStr i) -> spread {[ "id" := VStr i ]} data = data.
Proof.
  intros Hid. unfold spread. apply map_eq. intros k.
  destruct (decide (k = "id")) as [-> | Hk].
  - apply lookup_union_l'. rewrite Hid. eauto.
  - apply lookup_union_l. apply lookup_singleton_ne. congruence.
Qed.

Lemma documents_of_nil : documents_of [] = [].
Proof. reflexivity. Qed.

Lemma documents_of_cons (i : string) (data : Fields) (snapshot : list (string * Fields)) :
  documents_of ((i, data) :: snapshot)
  = if truthy (prop data "type")
    then spread {[ "id" := VStr i ]} data :: documents_of snapshot
    else documents_of snapshot.
Proof.
  unfold documents_of. simpl map.
  assert (Hp : prop (spread {[ "id" := VStr i ]} data) "type" = prop data "type").
  { unfold prop. rewrite prop_spread_id by done. reflexivity. }
  destruct (truthy (prop data "type")) eqn:Ht.
  - rewrite filter_cons_True; [reflexivity |]. rewrite Hp, Ht. exact I.
  - rewrite filter_cons_False; [reflexivity |]. rewrite Hp, Ht. simpl. tauto.
Qed.

Lemma elem_of_documents_of (doc : Fields) (snapshot : list (string * Fields)) :
  doc ∈ documents_of snapshot <->
  exists i data, (i, data) ∈ snapshot /\ truthy (prop data "type") = true
                 /\ doc = spread {[ "id" := VStr i ]} data.
Proof.
  induction snapshot as [| [i data] snapshot IH].
  - rewrite documents_of_nil. split; [intros H; inversion H |].
    intros (i & data & H & _). inversion H.
  - rewrite documents_of_cons. split.
    + destruct (truthy (prop data "type")) eqn:Ht.
      * intros H. apply elem_of_cons in H as [-> | H].
        -- exists i, data. split; [left | auto].
        -- apply IH in H as (i' & data' & Hin & Ht' & ->).
           exists i', data'. split; [right; exact Hin | auto].
      * intros H. apply IH in H as (i' & data' & Hin & Ht' & ->).
        exists i', data'. split; [right; exact Hin | auto].
    + intros (i' & data' & Hin & Ht' & ->).
      apply elem_of_cons in Hin as [[= -> ->] | Hin].
      * rewrite Ht'. left.
      * assert (spread {[ "id" := VStr i' ]} data' ∈ documents_of snapshot)
          by (apply IH; eauto).
        destruct (truthy (prop data "type")); [right |]; assumption.
Qed.

(** When every [type] that is there is truthy, the filter of getDocuments
    keeps exactly the records that have one. *)
Lemma documents_of_typed (snapshot : list (string * Fields)) :
  (forall i data v, (i, data) ∈ snapshot -> data !! "type" = Some v -> truthy v = true) ->
  documents_of snapshot
  = map (fun d => spread {[ "id" := VStr (fst d) ]} (snd d))
      (filter (fun d => is_Some (snd d !! "type")) snapshot).
Proof.
  induction snapshot as [| [i data] snapshot IH]; intros Hty; [reflexivity |].
  rewrite documents_of_cons.
  assert (IH' : documents_of snapshot
      = map (fun d => spread {[ "id" := VStr (fst d) ]} (snd d))
          (filter (fun d => is_Some (snd d !! "type")) snapshot)).
  { apply IH. intros i' data' v Hin. apply (Hty i'). right. exact Hin. }
  unfold prop. destruct (data !! "type") as [v |] eqn:Hv.
  - simpl. rewrite (Hty i data v ltac:(left) Hv).
    rewrite filter_cons_True by (simpl; rewrite Hv; eauto).
    simpl. f_equal. exact IH'.
  - simpl. rewrite filter_cons_False; [exact IH' |].
    simpl. rewrite Hv. intros [v Hv']. discriminate.
Qed.

Lemma status_fields_no_type (st : VerificationStatus) : status_fields st !! "type" = None.
Proof. unfold status_fields. simplify_map_eq. reflexivity. Qed.

Lemma document_fields_id (d : VerificationDocument) :
  document_fields d !! "id" = Some (VStr (id d)).
Proof. unfold document_fields. destruct (expiryDate d); simplify_map_eq; reflexivity. Qed.

Lemma document_fields_type (d : VerificationDocument) :
  document_fields d !! "type" = Some (VStr (type d)).
Proof. unfold document_fields. destruct (expiryDate d); simplify_map_eq; reflexivity. Qed.

Lemma document_fields_status (d : VerificationDocument) :
  document_fields d !! "status" = Some (VStr (status d)).
Proof. unfold document_fields. destruct (expiryDate d); simplify_map_eq; reflexivity. Qed.

Lemma stripped_document_id (d : VerificationDocument) :
  strip_undefined (document_fields d) !! "id" = Some (VStr (id d)).
Proof. apply lookup_strip_undefined; [apply document_fields_id | reflexivity]. Qed.

Lemma stripped_document_type (d : VerificationDocument) :
  strip_undefined (document_fields d) !! "type" = Some (VStr (type d)).
Proof. apply lookup_strip_undefined; [apply document_fields_type | reflexivity]. Qed.

Lemma stripped_document_status (d : VerificationDocument) :
  strip_undefined (document_fields d) !! "status" = Some (VStr (status d)).
Proof. apply lookup_strip_undefined; [apply document_fields_status | reflexivity]. Qed.

Lemma stripped_document_dated (d : VerificationDocument) :
  is_Some (expiryDate d) -> strip_undefined (document_fields d) = document_fields d.
Proof. intros He. apply strip_undefined_defined, document_fields_defined, He. Qed.


Section MoreRuns.
Import verificationService.
Variable env : Env.

Lemma uploadDocument_run (restaurantId : string) (file : File) (ty : string)
    (expiry : option string) (w : World) :
  quiet env (length (requests w)) 5 ->
  is_Some expiry \/ ignoreUndefinedProperties env = true ->
  let c := verificationPath restaurantId in
  let loc := "restaurants/" +:+ restaurantId +:+ "/verification/" +:+ ty +:+ "_"
               +:+ string_of_Z (clock env (ticks w)) in
  let d := {| id := autoId env (drawn w); type := ty; status := "pending";
              fileUrl := downloadURL env loc; fileName := name file;
              uploadedAt := toISOString (clock env (S (ticks w)));
              expiryDate := expiry |} in
  let db := fs_set (c, id d) (strip_undefined (document_fields d)) (firestore w) in
  let st := recompute (documents_of (fs_query c db)) (clock env (S (S (ticks w)))) in
  uploadDocument env restaurantId file ty expiry w
  = (Ok d,
     {| firestore := fs_set (c, "status") (status_fields st) db;
        storage := <[loc := file]> (storage w);
        console := console w;
        requests := (SetDoc (c, "status") (status_fields st), None)
                      :: (GetDocs c, None)
                      :: (SetDoc (c, id d) (document_fields d), None)
                      :: (GetDownloadURL loc, None)
                      :: (UploadBytes loc file, None) :: requests w;
        ticks := S (S (S (ticks w)));
        drawn := S (drawn w) |}).
Proof.
  intros (H0 & H1 & H2 & H3 & H4 & _) Hacc c loc d db st.
  unfold uploadDocument, logged, try_catch, bind. unfold now at 1. simpl.
  rewrite uploadBytes_ok by exact H0. fold loc.
  rewrite getDownloadURL_ok;
    [| exact H1 | simpl; rewrite lookup_insert_eq; eauto].
  unfold newId, now. simpl. fold c. fold d.
  rewrite setDoc_stored;
    [| exact H2
     | destruct Hacc as [Hsome | Hign];
       [left; apply document_fields_defined; exact Hsome | right; exact Hign]].
  rewrite updateVerificationStatus_run by (simpl; auto).
  reflexivity.
Qed.

Lemma deleteDocument_run (restaurantId : string) (d : VerificationDocument) (w : World) :
  quiet env (length (requests w)) 4 ->
  let c := verificationPath restaurantId in
  let loc := locationOf env (fileUrl d) in
  is_Some (storage w !! loc) ->
  let db := fs_delete (c, id d) (firestore w) in
  let st := recompute (documents_of (fs_query c db)) (clock env (ticks w)) in
  deleteDocument env restaurantId d w
  = (Ok tt,
     {| firestore := fs_set (c, "status") (status_fields st) db;
        storage := delete loc (storage w);
        console := console w;
        requests := (SetDoc (c, "status") (status_fields st), None)
                      :: (GetDocs c, None)
                      :: (DeleteDoc (c, id d), None)
                      :: (DeleteObject loc, None) :: requests w;
        ticks := S (ticks w);
        drawn := drawn w |}).
Proof.
  intros (H0 & H1 & H2 & H3 & _) c loc Hblob db st.
  unfold deleteDocument, logged, try_catch, bind. fold loc.
  rewrite deleteObject_ok by assumption.
  rewrite deleteDoc_ok by exact H1.
  rewrite updateVerificationStatus_run by (simpl; auto).
  reflexivity.
Qed.


(** C4.  getVerificationStatus reads the status record.  When there is
    none it builds the default record (nothing verified, nothing
    submitted, the three required types pending, nothing rejected, the
    current time), stores it under [status] and returns it.  When there is
    one it returns its data as read and sends no write. *)
Theorem getVerificationStatus_lazy_default (restaurantId : string) (w : World) :
  let ref := (verificationPath restaurantId, "status") in
  quiet env (length (requests w)) 1 ->
  (fs_get ref (firestore w) = None -> quiet env (S (length (requests w))) 1) ->
  match fs_get ref (firestore w) with
  | None =>
      let record : Fields :=
        {[ "isVerified" := VBool false;
           "documentsSubmitted" := VBool false;
           "pendingDocuments" :=
             VArr [VStr "business_license"; VStr "food_permit"; VStr "identity"];
           "rejectedDocuments" := VArr [];
           "lastUpdated" := VStr (toISOString (clock env (ticks w))) ]} in
      getVerificationStatus env restaurantId w
      = (Ok record,
         {| firestore := fs_set ref record (firestore w);
            storage := storage w;
            console := console w;
            requests := (SetDoc ref record, None) :: (GetDoc ref, None) :: requests w;
            ticks := S (ticks w);
            drawn := drawn w |})
      /\ fs_get ref (fs_set ref record (firestore w)) = Some record
  | Some data =>
      getVerificationStatus env restaurantId w
      = (Ok data,
         {| firestore := firestore w;
            storage := storage w;
            console := console w;
            requests := (GetDoc ref, None) :: requests w;
            ticks := ticks w;
            drawn := drawn w |})
  end.
Proof.
  intros ref [H0 _] H1.
  unfold getVerificationStatus, logged, try_catch, bind. fold ref.
  rewrite getDoc_ok by exact H0.
  destruct (fs_get ref (firestore w)) as [data |] eqn:Hget.
  - reflexivity.
  - destruct (H1 eq_refl) as [H1' _]. unfold now. simpl.
    rewrite setDoc_ok by (exact H1' || apply status_fields_defined).
    split; [reflexivity | apply fs_get_set].
Qed.
End MoreRuns.

(** ** The documents of a collection after a write *)

Lemma docs_cons (c : string) (r : DocRef) (f : Fields) (db : Firestore) :
  documents_of (fs_query c ((r, f) :: db))
  = head_docs c r f ++ documents_of (fs_query c db).
Proof.
  rewrite fs_query_cons. unfold head_docs.
  destruct (decide (fst r = c)); [| reflexivity].
  rewrite documents_of_cons. destruct (truthy (prop f "type")); reflexivity.
Qed.

Lemma fs_set_nil (r : DocRef) (f : Fields) : fs_set r f [] = [(r, f)].
Proof. reflexivity. Qed.

Lemma fs_set_cons (r r' : DocRef) (f f' : Fields) (db : Firestore) :
  fs_set r f ((r', f') :: db)
  = if decide (r' = r) then (r, f) :: db else (r', f') :: fs_set r f db.
Proof. reflexivity. Qed.

Lemma head_docs_falsy (c : string) (r : DocRef) (f : Fields) :
  truthy (prop f "type") = false -> head_docs c r f = [].
Proof. intros Hf. unfold head_docs. rewrite Hf. destruct (decide (fst r = c)); reflexivity. Qed.

Lemma head_docs_truthy (c i : string) (f : Fields) :
  truthy (prop f "type") = true ->
  head_docs c (c, i) f = [spread {[ "id" := VStr i ]} f].
Proof.
  intros Hf. unfold head_docs. simpl. rewrite Hf, decide_True by reflexivity. reflexivity.
Qed.

Lemma docs_set_falsy_nil (c : string) (r : DocRef) (f : Fields) (db : Firestore) :
  documents_of (fs_query c db) = [] ->
  truthy (prop f "type") = false ->
  documents_of (fs_query c (fs_set r f db)) = [].
Proof.
  intros Hnil Hf. induction db as [| [r' f'] db IH].
  - rewrite fs_set_nil, docs_cons, head_docs_falsy by exact Hf. reflexivity.
  - rewrite docs_cons in Hnil. apply app_eq_nil in Hnil as [Hh Ht].
    rewrite fs_set_cons. destruct (decide (r' = r)).
    + rewrite docs_cons, head_docs_falsy by exact Hf. exact Ht.
    + rewrite docs_cons, Hh. apply IH. exact Ht.
Qed.

Lemma docs_set_new (c i : string) (f : Fields) (db : Firestore) :
  documents_of (fs_query c db) = [] ->
  truthy (prop f "type") = true ->
  documents_of (fs_query c (fs_set (c, i) f db)) = [spread {[ "id" := VStr i ]} f].
Proof.
  intros Hnil Hf. induction db as [| [r' f'] db IH].
  - rewrite fs_set_nil, docs_cons, head_docs_truthy by exact Hf. reflexivity.
  - rewrite docs_cons in Hnil. apply app_eq_nil in Hnil as [Hh Ht].
    rewrite fs_set_cons. destruct (decide (r' = (c, i))).
    + rewrite docs_cons, head_docs_truthy, Ht by exact Hf. reflexivity.
    + rewrite docs_cons, Hh. apply IH. exact Ht.
Qed.

Lemma docs_after_upload (c i j : string) (fd fs : Fields) (db : Firestore) :
  documents_of (fs_query c db) = [] ->
  truthy (prop fd "type") = true ->
  truthy (prop fs "type") = false ->
  i ≠ j ->
  documents_of (fs_query c (fs_set (c, j) fs (fs_set (c, i) fd db)))
  = [spread {[ "id" := VStr i ]} fd].
Proof.
  intros Hnil Hd Hs Hij. induction db as [| [r' f'] db IH].
  - rewrite fs_set_nil, fs_set_cons, decide_False by congruence.
    rewrite fs_set_nil, !docs_cons, head_docs_truthy, head_docs_falsy by assumption.
    reflexivity.
  - rewrite docs_cons in Hnil. apply app_eq_nil in Hnil as [Hh Ht].
    rewrite fs_set_cons. destruct (decide (r' = (c, i))) as [-> | Hne].
    + rewrite fs_set_cons, decide_False by congruence.
      rewrite docs_cons, head_docs_truthy by exact Hd.
      rewrite docs_set_falsy_nil by assumption. reflexivity.
    + rewrite fs_set_cons. destruct (decide (r' = (c, j))) as [-> | Hne'].
      * rewrite docs_cons, head_docs_falsy by exact Hs.
        apply docs_set_new; assumption.
      * rewrite docs_cons, Hh. apply IH. exact Ht.
Qed.

Lemma typed_type_truthy (data : Fields) (v : Value) :
  typed_type data -> data !! "type" = Some v -> truthy v = true.
Proof.
  intros Hty Hv. destruct (Hty v Hv) as (s & -> & Hs). simpl.
  apply negb_true_iff, String.eqb_neq. exact Hs.
Qed.

Section DocumentTheorems.
Import verificationService.
Variable env : Env.

(** C6.  getDocuments queries the verification collection of the
    restaurant and returns, with its identifier, every record that has a
    [type] property, the [type]s being non-empty strings; no status
    record is among them.  After uploadDocument of an identity document
    for a restaurant without documents, it returns one object, the
    uploaded document with type identity and status pending, while the
    collection holds the status record as well.  The upload is one whose
    record the database accepts: it has an expiry date, or the database
    ignores undefined properties. *)
Theorem getDocuments_excludes_status :
  (forall (restaurantId : string) (w : World),
     let snapshot := fs_query (verificationPath restaurantId) (firestore w) in
     quiet env (length (requests w)) 1 ->
     (forall i data, (i, data) ∈ snapshot -> typed_type data) ->
     exists docs w',
       getDocuments env restaurantId w = (Ok docs, w')
       /\ firestore w' = firestore w
       /\ docs = map (fun d => spread {[ "id" := VStr (fst d) ]} (snd d))
                   (filter (fun d => is_Some (snd d !! "type")) snapshot)
       /\ (forall i st, spread {[ "id" := VStr i ]} (status_fields st) ∉ docs))
  /\
  (forall (restaurantId : string) (file : File) (expiry : option string) (w : World),
     let c := verificationPath restaurantId in
     quiet env (length (requests w)) 6 ->
     documents_of (fs_query c (firestore w)) = [] ->
     autoId env (drawn w) ≠ "status" ->
     is_Some expiry \/ ignoreUndefinedProperties env = true ->
     exists d w1 o w2,
       uploadDocument env restaurantId file "identity" expiry w = (Ok d, w1)
       /\ getDocuments env restaurantId w1 = (Ok [o], w2)
       /\ o = strip_undefined (document_fields d)
       /\ (is_Some expiry -> o = document_fields d)
       /\ type d = "identity" /\ status d = "pending"
       /\ o !! "id" = Some (VStr (id d))
       /\ o !! "type" = Some (VStr "identity")
       /\ o !! "status" = Some (VStr "pending")
       /\ (exists st, (id d, o) ∈ fs_query c (firestore w1)
                      /\ ("status", status_fields st) ∈ fs_query c (firestore w1))).
Proof.
  split.
  - intros restaurantId w snapshot Hq Hty.
    assert (Hdocs : documents_of snapshot
              = map (fun d => spread {[ "id" := VStr (fst d) ]} (snd d))
                  (filter (fun d => is_Some (snd d !! "type")) snapshot)).
    { apply documents_of_typed. intros i data v Hin Hv.
      apply (typed_type_truthy data v); [exact (Hty i data Hin) | exact Hv]. }
    eexists _, _. split; [apply getDocuments_run; exact Hq |].
    split; [reflexivity |]. split; [exact Hdocs |].
    intros i st Hin. apply elem_of_documents_of in Hin as (i' & data & _ & Ht & Heq).
    assert (Hnone : data !! "type" = None).
    { rewrite <- (prop_spread_id i' data "type") by done.
      rewrite <- Heq, prop_spread_id by done. apply status_fields_no_type. }
    unfold prop in Ht. rewrite Hnone in Ht. discriminate.
  - intros restaurantId file expiry w c (H0 & H1 & H2 & H3 & H4 & H5 & _) Hnil Hid Hacc.
    eexists _, _, _, _. split.
    { apply uploadDocument_run; [repeat split; assumption | exact Hacc]. }
    set (d := {| id := autoId env (drawn w); type := "identity" |}).
    assert (Hd : truthy (prop (strip_undefined (document_fields d)) "type") = true).
    { unfold prop. rewrite stripped_document_type. reflexivity. }
    split; [| split; [reflexivity | split; [| split; [reflexivity |
      split; [reflexivity | split; [| split; [| split]]]]]]].
    + rewrite getDocuments_run by (split; [exact H5 | exact I]). simpl firestore. f_equal.
      fold c. rewrite docs_after_upload; try assumption.
      * rewrite spread_id_same by apply stripped_document_id. reflexivity.
      * unfold prop. rewrite status_fields_no_type. reflexivity.
    + intros Hsome. apply stripped_document_dated. exact Hsome.
    + apply stripped_document_id.
    + apply stripped_document_type.
    + apply stripped_document_status.
    + eexists. simpl firestore. fold c. split; apply fs_query_elem.
      * apply (fs_get_elem (c, id d)). rewrite fs_get_set_other by (simpl; congruence).
        apply fs_get_set.
      * apply (fs_get_elem (c, "status")). apply fs_get_set.
Qed.
End DocumentTheorems.

Section DeleteTheorems.
Import verificationService.
Variable env : Env.


(** C8.  deleteDocument deletes the blob, then the record, then
    recomputes the status (a query and a write), and undoes nothing: when
    the blob is deleted and the deletion of the record is refused with
    [e], the method logs and throws [e], the store of documents is as
    before, so the record is still there, and the blob it points to is
    gone. *)
Theorem deleteDocument_no_compensation (restaurantId : string)
    (d : VerificationDocument) (w : World) :
  let c := verificationPath restaurantId in
  let loc := locationOf env (fileUrl d) in
  let n := length (requests w) in
  is_Some (storage w !! loc) ->
  fault env n = None ->
  (fault env (S n) = None -> quiet env (S (S n)) 2) ->
  match fault env (S n) with
  | Some e =>
      deleteDocument env restaurantId d w
      = (Threw e,
         {| firestore := firestore w;
            storage := delete loc (storage w);
            console := ("Error deleting document:", e) :: console w;
            requests := (DeleteDoc (c, id d), Some e)
                          :: (DeleteObject loc, None) :: requests w;
            ticks := ticks w;
            drawn := drawn w |})
      /\ delete loc (storage w) !! loc = None
  | None =>
      exists st,
        deleteDocument env restaurantId d w
        = (Ok tt,
           {| firestore := fs_set (c, "status") (status_fields st)
                             (fs_delete (c, id d) (firestore w));
              storage := delete loc (storage w);
              console := console w;
              requests := (SetDoc (c, "status") (status_fields st), None)
                            :: (GetDocs c, None)
                            :: (DeleteDoc (c, id d), None)
                            :: (DeleteObject loc, None) :: requests w;
              ticks := S (ticks w);
              drawn := drawn w |})
  end.
Proof.
  intros c loc n Hblob H0 Hrest.
  destruct (fault env (S n)) as [e |] eqn:H1.
  - split; [| apply lookup_delete_eq].
    unfold deleteDocument, logged, try_catch, bind. fold loc.
    rewrite deleteObject_ok by assumption.
    unfold deleteDoc. rewrite (request_refused env _ _ _ e) by exact H1.
    reflexivity.
  - eexists. apply deleteDocument_run; [| exact Hblob].
    destruct (Hrest eq_refl) as (H2 & H3 & _). repeat split; assumption.
Qed.
End DeleteTheorems.

(** ** Every path of every method *)

Lemma sound_method_sound {A} (msg : string) (m : M A) : sound_method msg m -> sound m.
Proof.
  intros H w. destruct (H w) as (new & Hreq & Hgood & Hres).
  exists new. split; [exact Hreq |]. split; [exact Hgood |].
  destruct (fst (m w)); [exact Hres |].
  destruct Hres as (q & earlier & msgs & Hnew & Hgr & Hcon).
  exists q, earlier, (msg :: msgs). auto.
Qed.

Lemma sound_ret {A} (a : A) : sound (ret a).
Proof.
  intros w. exists []. simpl. split; [reflexivity |]. split; [constructor |].
  split; [constructor | reflexivity].
Qed.

Lemma sound_bind {A B} (m : M A) (k : A -> M B) :
  sound m -> (forall a, sound (k a)) -> sound (bind m k).
Proof.
  intros Hm Hk w. unfold bind.
  destruct (Hm w) as (new1 & Hreq1 & Hgood1 & Hres1).
  destruct (m w) as [[a | e] w1]; simpl in *.
  - destruct Hres1 as [Hgr1 Hcon1].
    destruct (Hk a w1) as (new2 & Hreq2 & Hgood2 & Hres2).
    exists (new2 ++ new1). rewrite Hreq2, Hreq1, app_assoc.
    split; [reflexivity |]. split; [apply Forall_app; auto |].
    destruct (fst (k a w1)).
    + destruct Hres2 as [Hgr2 Hcon2]. split; [apply Forall_app; auto | congruence].
    + destruct Hres2 as (q & earlier & msgs & -> & Hgr2 & Hcon2).
      exists q, (earlier ++ new1), msgs. split; [reflexivity |].
      split; [apply Forall_app; auto | congruence].
  - exists new1. auto.
Qed.

Lemma sound_logged {A} (msg : string) (body : M A) :
  sound body -> sound_method msg (logged msg body).
Proof.
  intros Hb w. unfold logged, try_catch.
  destruct (Hb w) as (new & Hreq & Hgood & Hres).
  destruct (body w) as [[a | e] w1]; simpl in *.
  - exists new. auto.
  - exists new. split; [exact Hreq |]. split; [exact Hgood |].
    destruct Hres as (q & earlier & msgs & Hnew & Hgr & Hcon).
    exists q, earlier, msgs. split; [exact Hnew |]. split; [exact Hgr |].
    unfold bind, console_error, throw. simpl in *. rewrite Hcon. reflexivity.
Qed.

Section SoundRequests.
Variable env : Env.

Lemma sound_request {A} (q : Request) (perform : World -> Result A * World) :
  (forall o, good_write (q, o)) ->
  (forall w, requests (snd (perform w)) = requests w
             /\ console (snd (perform w)) = console w) ->
  sound (request env q perform).
Proof.
  intros Hgood Hsame w. unfold request.
  destruct (fault env (length (requests w))) as [e |].
  - exists [(q, Some e)]. simpl. split; [reflexivity |].
    split; [repeat constructor; apply Hgood |].
    exists q, [], []. repeat split. constructor.
  - destruct (Hsame w) as [Hreq Hcon].
    destruct (perform w) as [[a | e] w1]; unfold sound_run; simpl in *.
    + exists [(q, None)]. rewrite Hreq, Hcon. split; [reflexivity |].
      split; [repeat constructor; apply Hgood |].
      split; [repeat constructor | reflexivity].
    + exists [(q, Some e)]. rewrite Hreq, Hcon. split; [reflexivity |].
      split; [repeat constructor; apply Hgood |].
      exists q, [], []. repeat split. constructor.
Qed.

Lemma sound_now : sound (now env).
Proof.
  intros w. exists []. simpl. split; [reflexivity |]. split; [constructor |].
  split; [constructor | reflexivity].
Qed.

Lemma sound_newId : sound (newId env).
Proof.
  intros w. exists []. simpl. split; [reflexivity |]. split; [constructor |].
  split; [constructor | reflexivity].
Qed.

Ltac not_a_write := intros ? ? ? Heq; simpl in Heq; discriminate Heq.

Lemma sound_getDoc (r : DocRef) : sound (getDoc env r).
Proof. apply sound_request; [not_a_write | intros w; split; reflexivity]. Qed.

Lemma sound_getDocs (c : string) : sound (getDocs env c).
Proof. apply sound_request; [not_a_write | intros w; split; reflexivity]. Qed.

Lemma sound_deleteDoc (r : DocRef) : sound (deleteDoc env r).
Proof. apply sound_request; [not_a_write | intros w; split; reflexivity]. Qed.

Lemma sound_uploadBytes (loc : string) (file : File) : sound (uploadBytes env loc file).
Proof. apply sound_request; [not_a_write | intros w; split; reflexivity]. Qed.

Lemma sound_getDownloadURL (loc : string) : sound (getDownloadURL env loc).
Proof.
  apply sound_request; [not_a_write |].
  intros w. destruct (storage w !! loc); split; reflexivity.
Qed.

Lemma sound_deleteObject (loc : string) : sound (deleteObject env loc).
Proof.
  apply sound_request; [not_a_write |].
  intros w. destruct (storage w !! loc); split; reflexivity.
Qed.

Lemma sound_setDoc (r : DocRef) (data : Fields) :
  (forall st, data = status_fields st -> status_invariant st) ->
  sound (setDoc env r data).
Proof.
  intros Hdata. apply sound_request.
  - intros o r' st Heq. simpl in Heq. injection Heq as _ Heq. apply Hdata, Heq.
  - intros w. destruct (decide (defined_only data));
      [| destruct (ignoreUndefinedProperties env)]; split; reflexivity.
Qed.
End SoundRequests.

(** ** The records the service writes *)

Lemma status_fields_isVerified (st : VerificationStatus) :
  status_fields st !! "isVerified" = Some (VBool (isVerified st)).
Proof. unfold status_fields. simplify_map_eq. reflexivity. Qed.

Lemma status_fields_pending (st : VerificationStatus) :
  status_fields st !! "pendingDocuments" = Some (VArr (map VStr (pendingDocuments st))).
Proof. unfold status_fields. simplify_map_eq. reflexivity. Qed.

Lemma status_fields_rejected (st : VerificationStatus) :
  status_fields st !! "rejectedDocuments" = Some (VArr (rejectedDocuments st)).
Proof. unfold status_fields. simplify_map_eq. reflexivity. Qed.

Lemma status_invariant_fields (st st' : VerificationStatus) :
  status_fields st = status_fields st' -> status_invariant st -> status_invariant st'.
Proof.
  intros Heq Hinv. unfold status_invariant in *.
  assert (Hv : Some (VBool (isVerified st)) = Some (VBool (isVerified st')))
    by (rewrite <- !status_fields_isVerified, Heq; reflexivity).
  assert (Hp : Some (VArr (map VStr (pendingDocuments st)))
               = Some (VArr (map VStr (pendingDocuments st'))))
    by (rewrite <- !status_fields_pending, Heq; reflexivity).
  assert (Hr : Some (VArr (rejectedDocuments st)) = Some (VArr (rejectedDocuments st')))
    by (rewrite <- !status_fields_rejected, Heq; reflexivity).
  injection Hv as Hv. injection Hp as Hp. injection Hr as Hr.
  rewrite <- Hv, <- Hr, Hinv. f_equal.
  destruct (pendingDocuments st), (pendingDocuments st'); simpl in Hp;
    congruence || reflexivity.
Qed.

Lemma document_fields_not_status (d : VerificationDocument) (st : VerificationStatus) :
  document_fields d ≠ status_fields st.
Proof.
  intros Heq. pose proof (document_fields_type d) as Ht.
  rewrite Heq, status_fields_no_type in Ht. discriminate.
Qed.

Lemma recompute_invariant (documents : list Fields) (t : Z) :
  status_invariant (recompute documents t).
Proof. apply recompute_isVerified. Qed.

Lemma defaultStatus_invariant (t : Z) : status_invariant (defaultStatus t).
Proof. reflexivity. Qed.

Section SoundMethods.
Import verificationService.
Variable env : Env.

Lemma sound_getDocuments (restaurantId : string) :
  sound_method "Error getting verification documents:" (getDocuments env restaurantId).
Proof.
  apply sound_logged, sound_bind; [apply sound_getDocs |].
  intros snapshot. apply sound_ret.
Qed.

Lemma sound_updateVerificationStatus (restaurantId : string) :
  sound_method "Error updating verification status:"
    (updateVerificationStatus env restaurantId).
Proof.
  apply sound_logged, sound_bind.
  { eapply sound_method_sound, sound_getDocuments. }
  intros documents. apply sound_bind; [apply sound_now |].
  intros t. apply sound_bind; [| intros _; apply sound_ret].
  apply sound_setDoc. intros st Heq.
  apply (status_invariant_fields _ _ Heq), recompute_invariant.
Qed.

Lemma sound_getVerificationStatus (restaurantId : string) :
  sound_method "Error getting verification status:"
    (getVerificationStatus env restaurantId).
Proof.
  apply sound_logged, sound_bind; [apply sound_getDoc |].
  intros [data |]; [apply sound_ret |].
  apply sound_bind; [apply sound_now |].
  intros t. apply sound_bind; [| intros _; apply sound_ret].
  apply sound_setDoc. intros st Heq.
  apply (status_invariant_fields _ _ Heq), defaultStatus_invariant.
Qed.

Lemma sound_uploadDocument (restaurantId : string) (file : File) (ty : string)
    (expiry : option string) :
  sound_method "Error uploading document:"
    (uploadDocument env restaurantId file ty expiry).
Proof.
  apply sound_logged, sound_bind; [apply sound_now |].
  intros t. apply sound_bind; [apply sound_uploadBytes |].
  intros _. apply sound_bind; [apply sound_getDownloadURL |].
  intros url. apply sound_bind; [apply sound_newId |].
  intros i. apply sound_bind; [apply sound_now |].
  intros t'. apply sound_bind.
  { apply sound_setDoc. intros st Heq.
    exfalso. exact (document_fields_not_status _ _ Heq). }
  intros _. apply sound_bind; [| intros _; apply sound_ret].
  eapply sound_method_sound, sound_updateVerificationStatus.
Qed.

Lemma sound_deleteDocument (restaurantId : string) (d : VerificationDocument) :
  sound_method "Error deleting document:" (deleteDocument env restaurantId d).
Proof.
  apply sound_logged, sound_bind; [apply sound_deleteObject |].
  intros _. apply sound_bind; [apply sound_deleteDoc |].
  intros _. apply sound_bind; [| intros _; apply sound_ret].
  eapply sound_method_sound, sound_updateVerificationStatus.
Qed.
End SoundMethods.

Lemma call_sound (env : Env) (c : Call) (w : World) :
  exists new,
    requests (snd (call env c w)) = new ++ requests w
    /\ Forall good_write new
    /\ match fst (call env c w) with
       | None => Forall granted new /\ console (snd (call env c w)) = console w
       | Some e =>
           exists q earlier msgs,
             new = (q, Some e) :: earlier
             /\ Forall granted earlier
             /\ console (snd (call env c w))
                = map (fun m => (m, e)) (message c :: msgs) ++ console w
       end.
Proof.
  assert (Hgen : forall A (m : M A), sound_method (message c) m ->
            exists new,
              requests (snd (thrown (m w))) = new ++ requests w
              /\ Forall good_write new
              /\ match fst (thrown (m w)) with
                 | None => Forall granted new /\ console (snd (thrown (m w))) = console w
                 | Some e =>
                     exists q earlier msgs,
                       new = (q, Some e) :: earlier
                       /\ Forall granted earlier
                       /\ console (snd (thrown (m w)))
                          = map (fun m => (m, e)) (message c :: msgs) ++ console w
                 end).
  { intros A m Hm. destruct (Hm w) as (new & Hreq & Hgood & Hres).
    exists new. destruct (m w) as [[a | e] w1]; simpl in *; auto. }
  destruct c; simpl call; apply Hgen; simpl message.
  - apply sound_uploadDocument.
  - apply sound_getVerificationStatus.
  - apply sound_getDocuments.
  - apply sound_updateVerificationStatus.
  - apply sound_deleteDocument.
Qed.

(** C2.  Whatever the method and whatever is refused on the way, every
    VerificationStatus record the service hands to [setDoc] has
    [isVerified] equal to (pendingDocuments empty and rejectedDocuments
    empty): the default record of getVerificationStatus and the record
    recomputed by updateVerificationStatus, also when it is reached
    through uploadDocument or deleteDocument. *)
Theorem status_invariant_of_writes (env : Env) (c : Call) (w : World) :
  exists new,
    requests (snd (call env c w)) = new ++ requests w
    /\ forall r st o,
         (SetDoc r (status_fields st), o) ∈ new ->
         isVerified st = is_nil (pendingDocuments st) && is_nil (rejectedDocuments st).
Proof.
  destruct (call_sound env c w) as (new & Hreq & Hgood & _).
  exists new. split; [exact Hreq |].
  intros r st o Hin. rewrite Forall_forall in Hgood.
  exact (Hgood _ Hin r st eq_refl).
Qed.

(** C9.  A method that throws, throws the error of the request that
    failed: that request is the last one it sent, the requests before it
    succeeded, and the console has that same error under the message of the
    method.  A method that returns had no failed request and logged
    nothing: no error is swallowed. *)
Theorem errors_propagate_unchanged (env : Env) (c : Call) (w : World) :
  exists new,
    requests (snd (call env c w)) = new ++ requests w
    /\ match fst (call env c w) with
       | None => Forall granted new /\ console (snd (call env c w)) = console w
       | Some e =>
           exists q earlier msgs,
             new = (q, Some e) :: earlier
             /\ Forall granted earlier
             /\ console (snd (call env c w))
                = map (fun m => (m, e)) (message c :: msgs) ++ console w
       end.
Proof.
  destruct (call_sound env c w) as (new & Hreq & _ & Hres).
  exists new. split; [exact Hreq | exact Hres].
Qed.

Section SettingsTheorems.
Import RestaurantSettings.
Variable env : Env.

(** C7, as the code has it.  handleSubmit sends one [updateDoc] with the
    whole form state and [lastUpdated], the ISO string of the time read
    at the submit.  When the record of the user exists and the request
    is granted, the stored record gets each of these properties and
    keeps the others it had, the page reports success, and a read that
    follows loads that record: every submitted value and that
    [lastUpdated].  When there is no record, the update fails with
    not-found: nothing is written and the page reports the failure. *)
Theorem handleSubmit_updates_record (uid : string) (p : PageState) (w : World) :
  quiet env (length (requests w)) 1 ->
  let ref := ("users", uid) in
  let ts := toISOString (clock env (ticks w)) in
  let data := spread (settings p) {[ "lastUpdated" := VStr ts ]} in
  match fs_get ref (firestore w) with
  | Some old =>
      let stored := spread old data in
      handleSubmit env (Some uid) p w
      = ({| settings := settings p; loading := loading p; saving := false;
            error := ""; success := "Settings updated successfully" |},
         {| firestore := fs_set ref stored (firestore w);
            storage := storage w;
            console := console w;
            requests := (UpdateDoc ref data, None) :: requests w;
            ticks := S (ticks w);
            drawn := drawn w |})
      /\ (forall k v, settings p !! k = Some v -> k ≠ "lastUpdated" ->
            stored !! k = Some v)
      /\ (forall k, settings p !! k = None -> k ≠ "lastUpdated" ->
            stored !! k = old !! k)
      /\ stored !! "lastUpdated" = Some (VStr ts)
      /\ (quiet env (S (length (requests w))) 1 ->
          forall p0,
            settings (fst (fetchSettings env (Some uid) p0
                             (snd (handleSubmit env (Some uid) p w))))
            = stored)
  | None =>
      handleSubmit env (Some uid) p w
      = ({| settings := settings p; loading := loading p; saving := false;
            error := "Failed to update settings"; success := "" |},
         {| firestore := firestore w;
            storage := storage w;
            console := ("Error updating settings:", FirebaseError "not-found")
                         :: console w;
            requests := (UpdateDoc ref data, Some (FirebaseError "not-found"))
                          :: requests w;
            ticks := S (ticks w);
            drawn := drawn w |})
  end.
Proof.
  intros [H0 _] ref ts data.
  destruct (fs_get ref (firestore w)) as [old |] eqn:Hget.
  - intros stored.
    assert (Hrun : handleSubmit env (Some uid) p w
      = ({| settings := settings p; loading := loading p; saving := false;
            error := ""; success := "Settings updated successfully" |},
         {| firestore := fs_set ref stored (firestore w);
            storage := storage w;
            console := console w;
            requests := (UpdateDoc ref data, None) :: requests w;
            ticks := S (ticks w);
            drawn := drawn w |})).
    { unfold handleSubmit, bind, now. simpl.
      rewrite (updateDoc_ok env _ _ old) by assumption. reflexivity. }
    split; [exact Hrun |]. split; [| split; [| split]].
    + intros k v Hk Hne. unfold stored, data, spread.
      apply lookup_union_Some_l. rewrite lookup_union_r by
        (apply lookup_singleton_ne; congruence). exact Hk.
    + intros k Hk Hne. unfold stored, data, spread.
      apply lookup_union_r. rewrite lookup_union_r by
        (apply lookup_singleton_ne; congruence). exact Hk.
    + unfold stored, data, spread. apply lookup_union_Some_l, lookup_union_Some_l.
      apply lookup_singleton_eq.
    + intros [H1 _] p0. rewrite Hrun. unfold fetchSettings. simpl snd.
      rewrite getDoc_ok by exact H1. simpl. rewrite fs_get_set. reflexivity.
  - unfold handleSubmit, bind, now. simpl.
    rewrite updateDoc_missing by assumption. reflexivity.
Qed.
End SettingsTheorems.

Section Witnesses.
Import verificationService.

Example toISOString_epoch : toISOString 0 = "1970-01-01T00:00:00.000Z".
Proof. reflexivity. Qed.

Example toISOString_leap_day : toISOString 1709251199999 = "2024-02-29T23:59:59.999Z".
Proof. reflexivity. Qed.




Lemma getVerificationStatus_lazy_default_witness :
quiet calm (length (requests empty_world)) 1
/\ fs_get (verificationPath "r1", "status") (firestore empty_world) = None
/\ exists w',
     getVerificationStatus calm "r1" empty_world
     = (Ok {[ "isVerified" := VBool false;
              "documentsSubmitted" := VBool false;
              "pendingDocuments" :=
                VArr [VStr "business_license"; VStr "food_permit"; VStr "identity"];
              "rejectedDocuments" := VArr [];
              "lastUpdated" := VStr "2023-11-14T22:13:20.000Z" ]}, w').
Proof.
assert (Hq : quiet calm (length (requests empty_world)) 1) by (simpl; tauto).
split; [exact Hq |]. split; [reflexivity |].
pose proof (getVerificationStatus_lazy_default calm "r1" empty_world Hq
              (fun _ => conj eq_refl I)) as H.
change (fs_get (verificationPath "r1", "status") (firestore empty_world))
  with (@None Fields) in H.
destruct H as [Hrun _]. eexists. exact Hrun.
Defined.

End Witnesses.

Section MoreWitnesses.
Import verificationService.

(** getDocuments on the verified restaurant returns its three documents
  and not the status record; an upload of an identity document for a
  restaurant without records is then the one document returned. *)
Lemma getDocuments_excludes_status_witness :
(exists docs w',
   getDocuments calm "r1" verified_world = (Ok docs, w')
   /\ docs = [ document_fields (sample_document "a" "business_license" "approved");
               document_fields (sample_document "b" "food_permit" "approved");
               document_fields (sample_document "c" "identity" "approved") ])
/\ (exists d w1 w2,
      uploadDocument calm "r1" sample_file "identity" (Some "2026-01-01") empty_world
      = (Ok d, w1)
      /\ getDocuments calm "r1" w1 = (Ok [document_fields d], w2)
      /\ length (fs_query (verificationPath "r1") (firestore w1)) = 2%nat).
Proof.
destruct (getDocuments_excludes_status calm) as [Hall Hupload]. split.
- destruct (Hall "r1" verified_world) as (docs & w' & Hrun & _ & Hdocs & _).
  + simpl. tauto.
  + intros i data Hin v Hv. apply fs_query_elem in Hin.
    unfold verified_world, stored_document in Hin. simpl in Hin.
    repeat (apply elem_of_cons in Hin as [Hin | Hin]);
      try (injection Hin as -> ->; vm_compute in Hv; injection Hv as <-;
           eexists; split; [reflexivity | discriminate]).
    * injection Hin as -> ->. vm_compute in Hv. discriminate Hv.
    * inversion Hin.
  + exists docs, w'. split; [exact Hrun |]. rewrite Hdocs. vm_compute. reflexivity.
- destruct (Hupload "r1" sample_file (Some "2026-01-01") empty_world)
    as (d & w1 & o & w2 & Hup & Hget & _ & Hsame & _).
  + simpl. tauto.
  + reflexivity.
  + vm_compute. discriminate.
  + left. eauto.
  + exists d, w1, w2. split; [exact Hup |].
    split; [rewrite <- Hsame by eauto; exact Hget |].
    apply (f_equal snd) in Hup. simpl in Hup. rewrite <- Hup. vm_compute. reflexivity.
Defined.

(** A record whose [type] is the empty string has the property and is
    dropped all the same: the filter tests the value. *)
Example getDocuments_skips_empty_type :
  fst (getDocuments calm "r1" untyped_world)
  = Ok [document_fields (sample_document "a" "identity" "pending")].
Proof. vm_compute. reflexivity. Qed.

(** The blob of the identity document is deleted, the deletion of its
  record is refused: the error comes back, the record stays, the blob is
  gone. *)
Lemma deleteDocument_no_compensation_witness :
let e := FirebaseError "unavailable" in
let d := sample_document "c" "identity" "approved" in
exists w',
  deleteDocument (refusing 1 e) "r1" d verified_world = (Threw e, w')
  /\ fs_get (verificationPath "r1", "c") (firestore w') = Some (document_fields d)
  /\ storage w' !! "restaurants/r1/verification/identity_1" = None
  /\ console w' = [("Error deleting document:", e)].
Proof.
intros e d.
pose proof (deleteDocument_no_compensation (refusing 1 e) "r1" d verified_world) as H.
simpl in H. destruct H as [Hrun Hgone].
- vm_compute. eauto.
- reflexivity.
- discriminate.
- eexists. split; [exact Hrun |]. simpl.
  split; [vm_compute; reflexivity |]. split; [vm_compute; reflexivity | reflexivity].
Defined.

(** An upload writes the document and then a status record; the status
  record has the invariant. *)
Lemma status_invariant_of_writes_witness :
exists r st o rest,
  requests (snd (call calm (UploadDocument "r1" sample_file "identity"
                             (Some "2026-01-01")) empty_world))
  = (SetDoc r (status_fields st), o) :: rest
  /\ isVerified st = is_nil (pendingDocuments st) && is_nil (rejectedDocuments st).
Proof.
destruct (status_invariant_of_writes calm
            (UploadDocument "r1" sample_file "identity" (Some "2026-01-01")) empty_world)
  as (new & Hreq & Hinv).
simpl in Hreq. rewrite uploadDocument_run in Hreq by (simpl; eauto || tauto).
simpl in Hreq. rewrite app_nil_r in Hreq. subst new.
eexists _, _, _, _. split.
- simpl. rewrite uploadDocument_run by (simpl; eauto || tauto). reflexivity.
- eapply Hinv. left.
Defined.

(** A refused query inside an upload: the error of the query is the error
  of uploadDocument, logged by each of the three methods it went
  through. *)
Lemma errors_propagate_unchanged_witness :
let e := FirebaseError "permission-denied" in
let c := UploadDocument "r1" sample_file "identity" (Some "2026-01-01") in
fst (call (refusing 3 e) c empty_world) = Some e
/\ console (snd (call (refusing 3 e) c empty_world))
   = [ ("Error uploading document:", e);
       ("Error updating verification status:", e);
       ("Error getting verification documents:", e) ]
/\ exists q earlier,
     requests (snd (call (refusing 3 e) c empty_world)) = (q, Some e) :: earlier
     /\ Forall granted earlier.
Proof.
intros e c.
destruct (errors_propagate_unchanged (refusing 3 e) c empty_world) as (new & Hreq & Hres).
assert (Hthrown : fst (call (refusing 3 e) c empty_world) = Some e)
  by (vm_compute; reflexivity).
rewrite Hthrown in Hres. destruct Hres as (q & earlier & msgs & -> & Hgr & Hcon).
split; [reflexivity |]. split; [vm_compute; reflexivity |].
exists q, earlier. split; [| exact Hgr].
rewrite Hreq. simpl. rewrite app_nil_r. reflexivity.
Defined.
End MoreWitnesses.

Section SettingsWitnesses.
Import RestaurantSettings.

(** A submit for a user who has no record: the update fails, and the read
  that follows finds the blank form, not the submitted values. *)
Lemma submit_without_record_fails : ~ submit_round_trips.
Proof.
intros H.
destruct (H calm "u1" filled_page empty_world) as [Hfields _].
- intros k Hk. unfold formFields in Hk.
  repeat (apply elem_of_cons in Hk as [-> | Hk]);
    try (eexists; split; [vm_compute; reflexivity | discriminate]).
  inversion Hk.
- simpl. tauto.
- specialize (Hfields "restaurantName" ltac:(left)).
  vm_compute in Hfields. discriminate.
Qed.

Example submit_without_record :
handleSubmit calm (Some "u1") filled_page empty_world
= ({| settings := settings filled_page; loading := true; saving := false;
      error := "Failed to update settings"; success := "" |},
   {| firestore := [];
      storage := ∅;
      console := [("Error updating settings:", FirebaseError "not-found")];
      requests :=
        [(UpdateDoc ("users", "u1")
            (spread (settings filled_page)
               {[ "lastUpdated" := VStr "2023-11-14T22:13:20.000Z" ]}),
          Some (FirebaseError "not-found"))];
      ticks := 1; drawn := 0 |}).
Proof. vm_compute. reflexivity. Qed.

(** The record of the user keeps the properties the form does not have,
  and a submit in the millisecond of the stored [lastUpdated] stores the
  same [lastUpdated] again. *)
Lemma handleSubmit_updates_record_witness :
quiet calm (length (requests user_world)) 2
/\ exists stored,
     fs_get ("users", "u1") (firestore (snd (handleSubmit calm (Some "u1") filled_page user_world)))
     = Some stored
     /\ stored !! "restaurantName" = Some (VStr "Mama Put")
     /\ stored !! "email" = Some (VStr "owner@example.com")
     /\ stored !! "lastUpdated" = Some (VStr "2023-11-14T22:13:20.000Z")
     /\ settings (fst (fetchSettings calm (Some "u1") initial
                         (snd (handleSubmit calm (Some "u1") filled_page user_world))))
        = stored.
Proof.
assert (Hq : quiet calm (length (requests user_world)) 2) by (simpl; tauto).
split; [exact Hq |].
pose proof (handleSubmit_updates_record calm "u1" filled_page user_world
              (conj eq_refl I)) as H.
cbv zeta in H.
assert (Hget : fs_get ("users", "u1") (firestore user_world)
               = Some {[ "email" := VStr "owner@example.com";
                         "role" := VStr "restaurant";
                         "lastUpdated" := VStr "2023-11-14T22:13:20.000Z" ]})
  by reflexivity.
rewrite Hget in H. destruct H as (Hrun & Hform & Hkept & Hts & Hread).
eexists. split; [rewrite Hrun; simpl; apply fs_get_set |].
split; [apply Hform; [vm_compute; reflexivity | discriminate] |].
split; [rewrite Hkept; [vm_compute; reflexivity | vm_compute; reflexivity | discriminate] |].
split; [exact Hts |].
apply Hread. simpl. tauto.
Defined.
End SettingsWitnesses.

(** * Further properties of the service and of the settings page *)

(** ** More on the document store *)

Lemma fs_set_set (r : DocRef) (f f' : Fields) (db : Firestore) :
  fs_set r f' (fs_set r f db) = fs_set r f' db.
Proof.
  induction db as [| [r0 f0] db IH].
  - rewrite fs_set_nil, fs_set_cons, decide_True by reflexivity. reflexivity.
  - rewrite !fs_set_cons. destruct (decide (r0 = r)) as [-> | Hne].
    + rewrite fs_set_cons, decide_True by reflexivity. reflexivity.
    + rewrite fs_set_cons, decide_False by exact Hne. rewrite IH. reflexivity.
Qed.

Lemma fs_delete_cons (r r0 : DocRef) (f0 : Fields) (db : Firestore) :
  fs_delete r ((r0, f0) :: db)
  = if decide (r0 = r) then fs_delete r db else (r0, f0) :: fs_delete r db.
Proof.
  unfold fs_delete. destruct (decide (r0 = r)) as [-> | Hne].
  - rewrite filter_cons_False by (simpl; tauto). reflexivity.
  - rewrite filter_cons_True by exact Hne. reflexivity.
Qed.

Lemma fs_delete_set (r : DocRef) (f : Fields) (db : Firestore) :
  fs_delete r (fs_set r f db) = fs_delete r db.
Proof.
  induction db as [| [r0 f0] db IH].
  - rewrite fs_set_nil, fs_delete_cons, decide_True by reflexivity. reflexivity.
  - rewrite fs_set_cons, (fs_delete_cons r r0). destruct (decide (r0 = r)) as [-> | Hne].
    + rewrite fs_delete_cons, decide_True by reflexivity. reflexivity.
    + rewrite fs_delete_cons, decide_False by exact Hne. rewrite IH. reflexivity.
Qed.

Lemma fs_delete_absent (r : DocRef) (db : Firestore) :
  fs_get r db = None -> fs_delete r db = db.
Proof.
  induction db as [| [r0 f0] db IH]; [reflexivity |].
  unfold fs_get. fold fs_get. rewrite fs_delete_cons.
  destruct (decide (r0 = r)); [discriminate |].
  intros H. rewrite IH by exact H. reflexivity.
Qed.

Lemma fs_delete_set_other (r r' : DocRef) (f : Fields) (db : Firestore) :
  r ≠ r' -> fs_delete r (fs_set r' f db) = fs_set r' f (fs_delete r db).
Proof.
  intros Hne. induction db as [| [r0 f0] db IH].
  - rewrite fs_set_nil, fs_delete_cons, decide_False by congruence. reflexivity.
  - rewrite fs_set_cons, (fs_delete_cons r r0). destruct (decide (r0 = r')) as [-> | Hne'].
    + rewrite fs_delete_cons, !decide_False by congruence.
      rewrite fs_set_cons, decide_True by reflexivity. reflexivity.
    + rewrite fs_delete_cons. destruct (decide (r0 = r)); [exact IH |].
      rewrite fs_set_cons, decide_False by exact Hne'. rewrite IH. reflexivity.
Qed.

Lemma fs_get_cons (r r0 : DocRef) (f0 : Fields) (db : Firestore) :
  fs_get r ((r0, f0) :: db) = if decide (r0 = r) then Some f0 else fs_get r db.
Proof. reflexivity. Qed.

Lemma head_docs_other (c : string) (r : DocRef) (f : Fields) :
  fst r ≠ c -> head_docs c r f = [].
Proof. intros Hne. unfold head_docs. rewrite decide_False by exact Hne. reflexivity. Qed.

(** A record written under a fresh identifier comes last in the
    collection. *)
Lemma docs_set_fresh (c i : string) (f : Fields) (db : Firestore) :
  fs_get (c, i) db = None ->
  documents_of (fs_query c (fs_set (c, i) f db))
  = documents_of (fs_query c db) ++ head_docs c (c, i) f.
Proof.
  induction db as [| [r0 f0] db IH]; intros Hfresh.
  - rewrite fs_set_nil, docs_cons.
    change (documents_of (fs_query c [])) with (@nil Fields).
    rewrite app_nil_r. reflexivity.
  - rewrite fs_get_cons in Hfresh. rewrite fs_set_cons.
    destruct (decide (r0 = (c, i))); [discriminate |].
    rewrite !docs_cons, IH by exact Hfresh. rewrite app_assoc. reflexivity.
Qed.

(** Writing a record that is no document over a record that is no
    document, or under a fresh identifier, leaves the documents as they
    are. *)
Lemma docs_set_nondoc (c : string) (r : DocRef) (f : Fields) (db : Firestore) :
  truthy (prop f "type") = false ->
  (forall old, fs_get r db = Some old -> truthy (prop old "type") = false) ->
  documents_of (fs_query c (fs_set r f db)) = documents_of (fs_query c db).
Proof.
  intros Hf. induction db as [| [r0 f0] db IH]; intros Hold.
  - rewrite fs_set_nil, docs_cons, head_docs_falsy by exact Hf. reflexivity.
  - rewrite fs_get_cons in Hold. rewrite fs_set_cons.
    destruct (decide (r0 = r)) as [-> | Hne].
    + rewrite !docs_cons, !head_docs_falsy; auto.
    + rewrite !docs_cons, IH by exact Hold. reflexivity.
Qed.

Lemma fs_get_delete_other (r r' : DocRef) (db : Firestore) :
  r ≠ r' -> fs_get r' (fs_delete r db) = fs_get r' db.
Proof.
  intros Hne. induction db as [| [r0 f0] db IH]; [reflexivity |].
  rewrite fs_delete_cons, fs_get_cons. destruct (decide (r0 = r)) as [-> | Hr].
  - rewrite decide_False by exact Hne. exact IH.
  - rewrite fs_get_cons, IH. reflexivity.
Qed.

(** ** More on the scan *)

Lemma has_approved_app (a b : list Fields) (t : string) :
  has_approved (a ++ b) t <-> has_approved a t \/ has_approved b t.
Proof. unfold has_approved. apply Exists_app. Qed.

Lemma has_approved_perm (a b : list Fields) (t : string) :
  a ≡ₚ b -> has_approved a t <-> has_approved b t.
Proof.
  intros Hp. rewrite !has_approved_spec.
  split; intros (doc & Hin & H); exists doc; (split; [| exact H]).
  - rewrite <- Hp. exact Hin.
  - rewrite Hp. exact Hin.
Qed.

Lemma recompute_perm (a b : list Fields) (t : Z) :
  a ≡ₚ b ->
  pendingDocuments (recompute a t) = pendingDocuments (recompute b t)
  /\ rejectedDocuments (recompute a t) ≡ₚ rejectedDocuments (recompute b t)
  /\ isVerified (recompute a t) = isVerified (recompute b t)
  /\ documentsSubmitted (recompute a t) = documentsSubmitted (recompute b t).
Proof.
  intros Hp.
  assert (Hpend : pendingDocuments (recompute a t) = pendingDocuments (recompute b t)).
  { rewrite !recompute_pending. apply list_filter_iff. intros ty.
    rewrite (has_approved_perm a b ty Hp). reflexivity. }
  assert (Hrej : rejectedDocuments (recompute a t) ≡ₚ rejectedDocuments (recompute b t)).
  { rewrite !recompute_rejected. apply Permutation_map. rewrite Hp. reflexivity. }
  split; [exact Hpend |]. split; [exact Hrej |]. split.
  - rewrite !recompute_isVerified, Hpend. f_equal.
    destruct (rejectedDocuments (recompute a t)) as [| x l].
    + apply Permutation_nil_l in Hrej. rewrite Hrej. reflexivity.
    + destruct (rejectedDocuments (recompute b t)); [| reflexivity].
      apply Permutation_nil_r in Hrej. discriminate.
  - rewrite !recompute_documentsSubmitted. f_equal.
    destruct a, b; try reflexivity.
    + apply Permutation_nil_l in Hp. discriminate.
    + apply Permutation_nil_r in Hp. discriminate.
Qed.

Lemma documents_of_app (a b : list (string * Fields)) :
  documents_of (a ++ b) = documents_of a ++ documents_of b.
Proof.
  induction a as [| [i data] a IH]; [reflexivity |].
  simpl app. rewrite !documents_of_cons, IH.
  destruct (truthy (prop data "type")); reflexivity.
Qed.

Lemma documents_of_perm (a b : list (string * Fields)) :
  a ≡ₚ b -> documents_of a ≡ₚ documents_of b.
Proof.
  induction 1 as [| [i d] a b _ IH | [i d] [j e] a | a b c _ IH1 _ IH2].
  - reflexivity.
  - rewrite !documents_of_cons. destruct (truthy (prop d "type")); [constructor |]; exact IH.
  - rewrite !documents_of_cons.
    destruct (truthy (prop d "type")), (truthy (prop e "type")); try reflexivity.
    apply perm_swap.
  - etransitivity; eassumption.
Qed.

Lemma fs_query_perm (c : string) (a b : Firestore) :
  a ≡ₚ b -> fs_query c a ≡ₚ fs_query c b.
Proof.
  induction 1 as [| [r f] a b _ IH | [r f] [r' f'] a | a b d _ IH1 _ IH2].
  - reflexivity.
  - rewrite !fs_query_cons. destruct (decide (fst r = c)); [constructor |]; exact IH.
  - rewrite !fs_query_cons.
    destruct (decide (fst r = c)), (decide (fst r' = c)); try reflexivity.
    apply perm_swap.
  - etransitivity; eassumption.
Qed.

(** What a document that is neither approved nor rejected adds to the
    scan: nothing. *)
Lemma recompute_app_unreviewed (docs : list Fields) (doc : Fields) (t t' : Z) :
  is_str "approved" (prop doc "status") = false ->
  is_str "rejected" (prop doc "status") = false ->
  pendingDocuments (recompute (docs ++ [doc]) t) = pendingDocuments (recompute docs t')
  /\ rejectedDocuments (recompute (docs ++ [doc]) t) = rejectedDocuments (recompute docs t')
  /\ isVerified (recompute (docs ++ [doc]) t) = isVerified (recompute docs t').
Proof.
  intros Ha Hr.
  assert (Hpend : pendingDocuments (recompute (docs ++ [doc]) t)
                  = pendingDocuments (recompute docs t')).
  { rewrite !recompute_pending. apply list_filter_iff. intros ty.
    rewrite has_approved_app, has_approved_cons.
    pose proof (approves_not_approved doc ty Ha).
    assert (¬ has_approved [] ty) by (unfold has_approved; rewrite Exists_nil; tauto).
    tauto. }
  assert (Hrej : rejectedDocuments (recompute (docs ++ [doc]) t)
                 = rejectedDocuments (recompute docs t')).
  { rewrite !recompute_rejected, filter_app.
    rewrite (filter_cons_False _ doc) by (unfold is_rejected; rewrite Hr; simpl; tauto).
    rewrite filter_nil, app_nil_r. reflexivity. }
  split; [exact Hpend |]. split; [exact Hrej |].
  rewrite !recompute_isVerified, Hpend, Hrej. reflexivity.
Qed.

Lemma recompute_verified_submitted (documents : list Fields) (t : Z) :
  isVerified (recompute documents t) = true ->
  documentsSubmitted (recompute documents t) = true.
Proof.
  intros Hv. apply recompute_verified_iff in Hv as [Hall _].
  destruct (Hall "identity") as (doc & Hin & _).
  { unfold requiredTypes. set_solver. }
  rewrite recompute_documentsSubmitted. destruct documents; [inversion Hin | reflexivity].
Qed.

Section MoreStatusTheorems.
Import verificationService.
Variable env : Env.

(** X1.  getDocuments only reads: whether its query is granted or
    refused, both stores are as before and one request was sent. *)
Theorem getDocuments_reads_only (restaurantId : string) (w : World) :
  let w' := snd (getDocuments env restaurantId w) in
  firestore w' = firestore w
  /\ storage w' = storage w
  /\ exists o, requests w' = (GetDocs (verificationPath restaurantId), o) :: requests w.
Proof.
  unfold getDocuments, logged, try_catch, bind, getDocs, request.
  destruct (fault env (length (requests w))) as [e |]; simpl; eauto.
Qed.

(** X3.  Recomputing twice gives the same verdict: the status record is
    no document, so writing it does not change what the next scan sees.
    The record found under [status] must be no document itself. *)
Theorem updateVerificationStatus_stable (restaurantId : string) (w : World) :
  let c := verificationPath restaurantId in
  quiet env (length (requests w)) 4 ->
  (forall old, fs_get (c, "status") (firestore w) = Some old ->
     truthy (prop old "type") = false) ->
  exists st1 w1 st2 w2,
    updateVerificationStatus env restaurantId w = (Ok st1, w1)
    /\ updateVerificationStatus env restaurantId w1 = (Ok st2, w2)
    /\ isVerified st2 = isVerified st1
    /\ documentsSubmitted st2 = documentsSubmitted st1
    /\ pendingDocuments st2 = pendingDocuments st1
    /\ rejectedDocuments st2 = rejectedDocuments st1
    /\ firestore w2 = fs_set (c, "status") (status_fields st2) (firestore w).
Proof.
  intros c (H0 & H1 & H2 & H3 & _) Hold.
  eexists _, _, _, _. split; [apply updateVerificationStatus_run; repeat split; assumption |].
  split; [apply updateVerificationStatus_run; repeat split; assumption |].
  simpl firestore. fold c.
  rewrite docs_set_nondoc;
    [| unfold prop; rewrite status_fields_no_type; reflexivity | exact Hold].
  unfold recompute.
  destruct (fold_left scan (documents_of (fs_query c (firestore w))) (requiredTypes, []))
    as [p r]. simpl.
  repeat split; try reflexivity. apply fs_set_set.
Qed.

(** X4.  The verdict does not depend on the order in which the store
    keeps the records: two stores with the same records give the same
    isVerified, documentsSubmitted and pendingDocuments, and the same
    rejectedDocuments up to order. *)
Theorem updateVerificationStatus_order (restaurantId : string) (w w' : World) :
  quiet env (length (requests w)) 2 ->
  quiet env (length (requests w')) 2 ->
  firestore w ≡ₚ firestore w' ->
  exists st w1 st' w1',
    updateVerificationStatus env restaurantId w = (Ok st, w1)
    /\ updateVerificationStatus env restaurantId w' = (Ok st', w1')
    /\ isVerified st = isVerified st'
    /\ documentsSubmitted st = documentsSubmitted st'
    /\ pendingDocuments st = pendingDocuments st'
    /\ rejectedDocuments st ≡ₚ rejectedDocuments st'.
Proof.
  intros Hq Hq' Hp.
  eexists _, _, _, _. split; [apply updateVerificationStatus_run; exact Hq |].
  split; [apply updateVerificationStatus_run; exact Hq' |].
  set (a := documents_of (fs_query (verificationPath restaurantId) (firestore w))).
  set (b := documents_of (fs_query (verificationPath restaurantId) (firestore w'))).
  assert (Hab : a ≡ₚ b) by (apply documents_of_perm, fs_query_perm, Hp).
  assert (Hverdict : forall t t',
    isVerified (recompute a t) = isVerified (recompute b t')
    /\ documentsSubmitted (recompute a t) = documentsSubmitted (recompute b t')
    /\ pendingDocuments (recompute a t) = pendingDocuments (recompute b t')
    /\ rejectedDocuments (recompute a t) ≡ₚ rejectedDocuments (recompute b t')).
  { intros t t'. destruct (recompute_perm a b t Hab) as (Hpe & Hre & Hv & Hs).
    rewrite !recompute_isVerified, !recompute_documentsSubmitted, !recompute_pending,
      !recompute_rejected in *. auto. }
  apply Hverdict.
Qed.

(** X5.  What holds of every record updateVerificationStatus writes: a
    verified restaurant has submitted documents; pendingDocuments is a
    sublist of the three required types; rejectedDocuments has at most
    one entry per document, and each entry is the truthy [type] of a
    document. *)
Theorem updateVerificationStatus_record_shape (restaurantId : string) (w : World) :
  quiet env (length (requests w)) 2 ->
  let documents :=
    documents_of (fs_query (verificationPath restaurantId) (firestore w)) in
  exists st w',
    updateVerificationStatus env restaurantId w = (Ok st, w')
    /\ (isVerified st = true -> documentsSubmitted st = true)
    /\ pendingDocuments st `sublist_of` requiredTypes
    /\ (length (rejectedDocuments st) <= length documents)%nat
    /\ (forall v, v ∈ rejectedDocuments st ->
          truthy v = true /\ exists doc, doc ∈ documents /\ prop doc "type" = v).
Proof.
  intros Hq documents.
  eexists _, _. split; [apply updateVerificationStatus_run; exact Hq |].
  split; [apply recompute_verified_submitted |].
  split; [rewrite recompute_pending; apply sublist_filter |].
  rewrite recompute_rejected. split.
  - rewrite length_map. apply length_filter.
  - intros v Hv. apply list_elem_of_fmap in Hv as (doc & -> & Hin).
    apply list_elem_of_filter in Hin as [_ Hin].
    split; [| eauto].
    apply elem_of_documents_of in Hin as (i & data & _ & Ht & ->).
    unfold prop in *. rewrite prop_spread_id by done. exact Ht.
Qed.
End MoreStatusTheorems.

Section UploadTheorems.
Import verificationService.
Variable env : Env.

(** X6.  An upload under a fresh identifier leaves the verdict alone:
    the new document is pending, so the status stored after the upload has
    the isVerified, pendingDocuments and rejectedDocuments that
    updateVerificationStatus gives without the upload; and with a
    non-empty type the restaurant has submitted documents.  The upload is
    one whose record the database accepts: it has an expiry date, or the
    database ignores undefined properties. *)
Theorem uploadDocument_keeps_verdict (restaurantId : string) (file : File)
    (ty : string) (expiry : option string) (w : World) :
  let c := verificationPath restaurantId in
  quiet env (length (requests w)) 5 ->
  is_Some expiry \/ ignoreUndefinedProperties env = true ->
  fs_get (c, autoId env (drawn w)) (firestore w) = None ->
  exists st0 w0 d w1 st,
    updateVerificationStatus env restaurantId w = (Ok st0, w0)
    /\ uploadDocument env restaurantId file ty expiry w = (Ok d, w1)
    /\ fs_get (c, "status") (firestore w1) = Some (status_fields st)
    /\ isVerified st = isVerified st0
    /\ pendingDocuments st = pendingDocuments st0
    /\ rejectedDocuments st = rejectedDocuments st0
    /\ (ty ≠ "" -> documentsSubmitted st = true).
Proof.
  intros c Hq Hacc Hfresh.
  assert (Hq2 : quiet env (length (requests w)) 2)
    by (destruct Hq as (H0 & H1 & _); repeat split; assumption).
  eexists _, _, _, _, _.
  split; [apply updateVerificationStatus_run; exact Hq2 |].
  split; [apply uploadDocument_run; [exact Hq | exact Hacc] |].
  split; [simpl; apply fs_get_set |].
  fold c. simpl id. rewrite docs_set_fresh by exact Hfresh.
  match goal with |- context [document_fields ?x] => set (d := x) end.
  set (o := strip_undefined (document_fields d)).
  assert (Hty : prop o "type" = VStr ty)
    by (unfold prop, o; rewrite stripped_document_type; reflexivity).
  assert (Hst : prop o "status" = VStr "pending")
    by (unfold prop, o; rewrite stripped_document_status; reflexivity).
  unfold head_docs. simpl fst. rewrite decide_True by reflexivity. rewrite Hty.
  destruct (truthy (VStr ty)) eqn:Htruthy.
  - simpl snd.
    assert (Hsp : spread {[ "id" := VStr (autoId env (drawn w)) ]} o = o)
      by (apply spread_id_same, stripped_document_id).
    rewrite Hsp.
    destruct (recompute_app_unreviewed
                (documents_of (fs_query c (firestore w))) o
                (clock env (S (S (ticks w)))) (clock env (ticks w)))
      as (Hp & Hr & Hv); [rewrite Hst; reflexivity | rewrite Hst; reflexivity |].
    repeat split; try assumption.
    intros _. rewrite recompute_documentsSubmitted.
    destruct (documents_of (fs_query c (firestore w))); reflexivity.
  - rewrite app_nil_r. unfold recompute.
    destruct (fold_left scan (documents_of (fs_query c (firestore w))) (requiredTypes, []))
      as [p r]. simpl. repeat split; try reflexivity.
    intros Hne. simpl in Htruthy. apply negb_false_iff, String.eqb_eq in Htruthy.
    contradiction.
Qed.

(** X7.  No rollback in uploadDocument: when the blob is uploaded and
    the write of the record is refused with [e], the method logs and
    throws [e]; no record was written and the blob stays in the object
    store. *)
Theorem uploadDocument_orphan_blob (restaurantId : string) (file : File)
    (ty : string) (expiry : option string) (w : World) (e : Error) :
  let n := length (requests w) in
  let loc := "restaurants/" +:+ restaurantId +:+ "/verification/" +:+ ty +:+ "_"
               +:+ string_of_Z (clock env (ticks w)) in
  quiet env n 2 ->
  fault env (S (S n)) = Some e ->
  exists w',
    uploadDocument env restaurantId file ty expiry w = (Threw e, w')
    /\ firestore w' = firestore w
    /\ storage w' = <[loc := file]> (storage w)
    /\ storage w' !! loc = Some file
    /\ console w' = ("Error uploading document:", e) :: console w.
Proof.
  intros n loc (H0 & H1 & _) H2.
  unfold uploadDocument, logged, try_catch, bind. unfold now at 1. simpl.
  rewrite uploadBytes_ok by exact H0. fold loc.
  rewrite getDownloadURL_ok; [| exact H1 | simpl; rewrite lookup_insert_eq; eauto].
  unfold newId, now. simpl.
  unfold setDoc. rewrite (request_refused env _ _ _ e) by exact H2.
  eexists. split; [reflexivity |]. simpl.
  repeat split. apply lookup_insert_eq.
Qed.

(** X8.  When the record is written and the recomputation of the status
    then fails, at its query or at its write, uploadDocument throws that
    error although the document is stored: the record is in the
    collection, the blob in the object store, and the status record is the
    one from before.  The upload is one whose record the database accepts:
    it has an expiry date, or the database ignores undefined properties. *)
Theorem uploadDocument_stale_status (restaurantId : string) (file : File)
    (ty : string) (expiry : option string) (w : World) (e : Error) :
  let c := verificationPath restaurantId in
  let n := length (requests w) in
  quiet env n 3 ->
  is_Some expiry \/ ignoreUndefinedProperties env = true ->
  fault env (3 + n) = Some e
  \/ (fault env (3 + n) = None /\ fault env (4 + n) = Some e) ->
  autoId env (drawn w) ≠ "status" ->
  exists w' data,
    uploadDocument env restaurantId file ty expiry w = (Threw e, w')
    /\ fs_get (c, autoId env (drawn w)) (firestore w') = Some data
    /\ data !! "type" = Some (VStr ty)
    /\ data !! "status" = Some (VStr "pending")
    /\ fs_get (c, "status") (firestore w') = fs_get (c, "status") (firestore w)
    /\ exists rest, console w' = ("Error uploading document:", e) :: rest.
Proof.
  intros c n (H0 & H1 & H2 & _) Hacc Hfail Hid.
  unfold uploadDocument, logged, try_catch, bind. unfold now at 1. simpl.
  rewrite uploadBytes_ok by exact H0.
  rewrite getDownloadURL_ok; [| exact H1 | simpl; rewrite lookup_insert_eq; eauto].
  unfold newId, now. simpl. fold c.
  rewrite setDoc_stored;
    [| exact H2
     | destruct Hacc as [Hsome | Hign];
       [left; apply document_fields_defined; exact Hsome | right; exact Hign]].
  unfold updateVerificationStatus, getDocuments, logged, try_catch, bind. simpl.
  destruct Hfail as [H3 | [H3 H4]].
  - unfold getDocs. rewrite (request_refused env _ _ _ e) by exact H3. simpl.
    eexists _, _. split; [reflexivity |]. simpl.
    split; [apply fs_get_set |].
    split; [apply stripped_document_type |]. split; [apply stripped_document_status |].
    split; [apply fs_get_set_other; congruence | eauto].
  - rewrite getDocs_ok by exact H3. unfold now. simpl.
    unfold setDoc. rewrite (request_refused env _ _ _ e) by exact H4. simpl.
    eexists _, _. split; [reflexivity |]. simpl.
    split; [apply fs_get_set |].
    split; [apply stripped_document_type |]. split; [apply stripped_document_status |].
    split; [apply fs_get_set_other; congruence | eauto].
Qed.
End UploadTheorems.

Section StatusReadTheorems.
Import verificationService.
Variable env : Env.

(** X9.  Two reads of the status in a row return the same record, and
    the second one sends a read and nothing else: the default record is
    created at most once. *)
Theorem getVerificationStatus_twice (restaurantId : string) (w : World) :
  let ref := (verificationPath restaurantId, "status") in
  quiet env (length (requests w)) 3 ->
  exists data w1 w2,
    getVerificationStatus env restaurantId w = (Ok data, w1)
    /\ getVerificationStatus env restaurantId w1 = (Ok data, w2)
    /\ fs_get ref (firestore w1) = Some data
    /\ firestore w2 = firestore w1
    /\ requests w2 = (GetDoc ref, None) :: requests w1.
Proof.
  intros ref (H0 & H1 & H2 & _).
  unfold getVerificationStatus, logged, try_catch, bind. fold ref.
  rewrite getDoc_ok by exact H0.
  destruct (fs_get ref (firestore w)) as [data |] eqn:Hget.
  - eexists _, _, _. split; [reflexivity |]. simpl.
    rewrite getDoc_ok by exact H1. simpl. rewrite Hget. auto.
  - unfold now. simpl. rewrite setDoc_ok by (exact H1 || apply status_fields_defined).
    eexists _, _, _. split; [reflexivity |]. simpl.
    rewrite getDoc_ok by exact H2. simpl. rewrite fs_get_set. auto.
Qed.

(** X10.  getVerificationStatus never overwrites: on every path the
    store of documents is as before, except when there was no status
    record and both requests were granted, and then the only change is the
    default record under [status]. *)
Theorem getVerificationStatus_never_overwrites (restaurantId : string) (w : World) :
  let ref := (verificationPath restaurantId, "status") in
  let res := getVerificationStatus env restaurantId w in
  firestore (snd res) = firestore w
  \/ (fs_get ref (firestore w) = None
      /\ fst res = Ok (status_fields (defaultStatus (clock env (ticks w))))
      /\ firestore (snd res)
         = fs_set ref (status_fields (defaultStatus (clock env (ticks w)))) (firestore w)).
Proof.
  intros ref res. unfold res, getVerificationStatus, logged, try_catch, bind. fold ref.
  unfold getDoc, setDoc, request.
  destruct (fault env (length (requests w))) as [e |]; simpl; [left; reflexivity |].
  destruct (fs_get ref (firestore w)) as [data |] eqn:Hget; simpl; [left; reflexivity |].
  destruct (fault env (S (length (requests w)))) as [e |]; simpl; [left; reflexivity |].
  destruct (decide (defined_only (status_fields (defaultStatus (clock env (ticks w))))))
    as [_ | Hundef]; [| exfalso; apply Hundef, status_fields_defined].
  right. auto.
Qed.
End StatusReadTheorems.

Section DeleteMoreTheorems.
Import verificationService.
Variable env : Env.

(** X11.  A record left behind by a failed deletion cannot be removed by
    deleting again: once the blob is gone, deleteDocument fails at its
    first step, with storage/object-not-found when the request is not
    refused, and the record stays. *)
Theorem deleteDocument_retry_fails (restaurantId : string)
    (d : VerificationDocument) (w : World) (e : Error) :
  let n := length (requests w) in
  is_Some (storage w !! locationOf env (fileUrl d)) ->
  fault env n = None ->
  fault env (S n) = Some e ->
  exists w1 e' w2,
    deleteDocument env restaurantId d w = (Threw e, w1)
    /\ deleteDocument env restaurantId d w1 = (Threw e', w2)
    /\ (fault env (S (S n)) = None -> e' = FirebaseError "storage/object-not-found")
    /\ firestore w2 = firestore w
    /\ storage w2 = delete (locationOf env (fileUrl d)) (storage w).
Proof.
  intros n Hblob H0 H1. subst n.
  set (w1 := {| firestore := firestore w;
                storage := delete (locationOf env (fileUrl d)) (storage w);
                console := ("Error deleting document:", e) :: console w;
                requests := (DeleteDoc (verificationPath restaurantId, id d), Some e)
                              :: (DeleteObject (locationOf env (fileUrl d)), None)
                              :: requests w;
                ticks := ticks w; drawn := drawn w |}).
  assert (Hfirst : deleteDocument env restaurantId d w = (Threw e, w1)).
  { unfold deleteDocument, logged, try_catch, bind.
    rewrite deleteObject_ok by assumption.
    unfold deleteDoc. rewrite (request_refused env _ _ _ e) by exact H1. reflexivity. }
  exists w1. unfold deleteDocument at 2. unfold logged, try_catch, bind.
  unfold deleteObject, request. simpl.
  destruct (fault env (S (S (length (requests w))))) as [e2 |].
  - eexists e2, _. split; [exact Hfirst |]. split; [reflexivity |].
    split; [discriminate | auto].
  - rewrite lookup_delete_eq. simpl.
    eexists _, _. split; [exact Hfirst |]. split; [reflexivity | auto].
Qed.

(** X12.  Upload, then delete what was uploaded: when the generated
    identifier is fresh and the URL of the blob resolves to its location,
    the store of documents ends as it began except for the status record,
    and the blob is gone again.  The upload is one whose record the
    database accepts: it has an expiry date, or the database ignores
    undefined properties. *)
Theorem upload_then_delete (restaurantId : string) (file : File) (ty : string)
    (expiry : option string) (w : World) :
  let c := verificationPath restaurantId in
  let loc := "restaurants/" +:+ restaurantId +:+ "/verification/" +:+ ty +:+ "_"
               +:+ string_of_Z (clock env (ticks w)) in
  quiet env (length (requests w)) 9 ->
  is_Some expiry \/ ignoreUndefinedProperties env = true ->
  fs_get (c, autoId env (drawn w)) (firestore w) = None ->
  autoId env (drawn w) ≠ "status" ->
  locationOf env (downloadURL env loc) = loc ->
  exists d w1 w2 st,
    uploadDocument env restaurantId file ty expiry w = (Ok d, w1)
    /\ deleteDocument env restaurantId d w1 = (Ok tt, w2)
    /\ firestore w2 = fs_set (c, "status") (status_fields st) (firestore w)
    /\ (forall r, r ≠ (c, "status") -> fs_get r (firestore w2) = fs_get r (firestore w))
    /\ storage w2 = delete loc (storage w)
    /\ (storage w !! loc = None -> storage w2 = storage w).
Proof.
  intros c loc (H0 & H1 & H2 & H3 & H4 & H5 & H6 & H7 & H8 & _) Hacc Hfresh Hid Hloc.
  eexists _, _, _, _.
  split; [apply uploadDocument_run; [repeat split; assumption | exact Hacc] |].
  assert (Hstore : forall S1 S2 D,
    fs_set (c, "status") S2
      (fs_delete (c, autoId env (drawn w))
         (fs_set (c, "status") S1 (fs_set (c, autoId env (drawn w)) D (firestore w))))
    = fs_set (c, "status") S2 (firestore w)).
  { intros S1 S2 D. rewrite fs_delete_set_other by congruence.
    rewrite fs_set_set, fs_delete_set, fs_delete_absent by exact Hfresh. reflexivity. }
  split.
  { rewrite deleteDocument_run.
    - reflexivity.
    - simpl. repeat split; assumption.
    - simpl. fold loc. rewrite Hloc, lookup_insert_eq. eauto. }
  simpl. fold c loc. rewrite Hloc, !Hstore.
  split; [reflexivity |].
  split; [intros r Hr; apply fs_get_set_other; congruence |].
  split; [apply delete_insert_eq |].
  intros Hfree. rewrite delete_insert_eq. apply delete_id. exact Hfree.
Qed.
End DeleteMoreTheorems.

(** ** One restaurant at a time *)

Lemma string_length_app (a b : string) :
  String.length (a +:+ b) = (String.length a + String.length b)%nat.
Proof. induction a as [| ch a IH]; simpl; [reflexivity | rewrite IH; reflexivity]. Qed.

Lemma string_app_inv_tail (a b s : string) : a +:+ s = b +:+ s -> a = b.
Proof.
  revert b. induction a as [| ch a IH]; intros [| ch' b] H.
  - reflexivity.
  - apply (f_equal String.length) in H. rewrite !string_length_app in H.
    simpl in H. lia.
  - apply (f_equal String.length) in H. rewrite !string_length_app in H.
    simpl in H. lia.
  - change (String ch (a +:+ s) = String ch' (b +:+ s)) in H.
    injection H as -> H. f_equal. apply IH. exact H.
Qed.

Lemma verificationPath_inj (a b : string) :
  verificationPath a = verificationPath b -> a = b.
Proof.
  unfold verificationPath. intros H.
  apply (String.app_inj "restaurants/") in H.
  apply string_app_inv_tail in H. exact H.
Qed.

Lemma outside_cons (c : string) (r : DocRef) (f : Fields) (db : Firestore) :
  outside c ((r, f) :: db)
  = if decide (fst r = c) then outside c db else (r, f) :: outside c db.
Proof.
  unfold outside. destruct (decide (fst r = c)) as [Heq | Hne].
  - rewrite filter_cons_False by (simpl; tauto). reflexivity.
  - rewrite filter_cons_True by exact Hne. reflexivity.
Qed.

Lemma outside_set (c i : string) (f : Fields) (db : Firestore) :
  outside c (fs_set (c, i) f db) = outside c db.
Proof.
  induction db as [| [r0 f0] db IH].
  - rewrite fs_set_nil, outside_cons, decide_True by reflexivity. reflexivity.
  - rewrite fs_set_cons. destruct (decide (r0 = (c, i))) as [-> | Hne].
    + rewrite !outside_cons, !decide_True by reflexivity. reflexivity.
    + rewrite !outside_cons, IH. reflexivity.
Qed.

Lemma outside_delete (c i : string) (db : Firestore) :
  outside c (fs_delete (c, i) db) = outside c db.
Proof.
  induction db as [| [r0 f0] db IH]; [reflexivity |].
  rewrite fs_delete_cons. destruct (decide (r0 = (c, i))) as [-> | Hne].
  - rewrite outside_cons, decide_True by reflexivity. exact IH.
  - rewrite !outside_cons, IH. reflexivity.
Qed.

Lemma fs_get_outside (c : string) (r : DocRef) (db : Firestore) :
  fst r ≠ c -> fs_get r (outside c db) = fs_get r db.
Proof.
  intros Hr. induction db as [| [r0 f0] db IH]; [reflexivity |].
  rewrite outside_cons, fs_get_cons. destruct (decide (fst r0 = c)) as [Heq | Hne].
  - rewrite decide_False by congruence. exact IH.
  - rewrite fs_get_cons, IH. reflexivity.
Qed.

Lemma fs_query_outside (c c' : string) (db : Firestore) :
  c' ≠ c -> fs_query c' (outside c db) = fs_query c' db.
Proof.
  intros Hc. induction db as [| [r0 f0] db IH]; [reflexivity |].
  rewrite outside_cons, fs_query_cons. destruct (decide (fst r0 = c)) as [Heq | Hne].
  - rewrite decide_False by congruence. exact IH.
  - rewrite fs_query_cons, IH. reflexivity.
Qed.

Lemma confined_ret {A} (c : string) (a : A) : confined c (ret a).
Proof. intros w. reflexivity. Qed.

Lemma confined_bind {A B} (c : string) (m : M A) (k : A -> M B) :
  confined c m -> (forall a, confined c (k a)) -> confined c (bind m k).
Proof.
  intros Hm Hk w. unfold bind. specialize (Hm w).
  destruct (m w) as [[a | e] w1]; simpl in *; [| exact Hm].
  rewrite (Hk a w1). exact Hm.
Qed.

Lemma confined_logged {A} (c : string) (msg : string) (body : M A) :
  confined c body -> confined c (logged msg body).
Proof.
  intros Hb w. unfold logged, try_catch. specialize (Hb w).
  destruct (body w) as [[a | e] w1]; simpl in *; exact Hb.
Qed.

Section ConfinedRequests.
Variable env : Env.

Lemma confined_request {A} (c : string) (q : Request)
    (perform : World -> Result A * World) :
  (forall w, outside c (firestore (snd (perform w))) = outside c (firestore w)) ->
  confined c (request env q perform).
Proof.
  intros Hp w. unfold request.
  destruct (fault env (length (requests w))); [reflexivity |].
  specialize (Hp w). destruct (perform w) as [[a | e] w1]; simpl in *; exact Hp.
Qed.

Lemma confined_now (c : string) : confined c (now env).
Proof. intros w. reflexivity. Qed.

Lemma confined_newId (c : string) : confined c (newId env).
Proof. intros w. reflexivity. Qed.

Lemma confined_setDoc (c i : string) (data : Fields) : confined c (setDoc env (c, i) data).
Proof.
  apply confined_request. intros w.
  destruct (decide (defined_only data)); [| destruct (ignoreUndefinedProperties env)];
    simpl; try apply outside_set; reflexivity.
Qed.

Lemma confined_deleteDoc (c i : string) : confined c (deleteDoc env (c, i)).
Proof. apply confined_request. intros w. simpl. apply outside_delete. Qed.

Lemma confined_getDoc (c : string) (r : DocRef) : confined c (getDoc env r).
Proof. apply confined_request. reflexivity. Qed.

Lemma confined_getDocs (c c' : string) : confined c (getDocs env c').
Proof. apply confined_request. reflexivity. Qed.

Lemma confined_uploadBytes (c loc : string) (file : File) :
  confined c (uploadBytes env loc file).
Proof. apply confined_request. reflexivity. Qed.

Lemma confined_getDownloadURL (c loc : string) : confined c (getDownloadURL env loc).
Proof. apply confined_request. intros w. destruct (storage w !! loc); reflexivity. Qed.

Lemma confined_deleteObject (c loc : string) : confined c (deleteObject env loc).
Proof. apply confined_request. intros w. destruct (storage w !! loc); reflexivity. Qed.
End ConfinedRequests.

Section ConfinedMethods.
Import verificationService.
Variable env : Env.

Lemma confined_getDocuments (rid : string) :
  confined (verificationPath rid) (getDocuments env rid).
Proof.
  apply confined_logged, confined_bind; [apply confined_getDocs |].
  intros snapshot. apply confined_ret.
Qed.

Lemma confined_updateVerificationStatus (rid : string) :
  confined (verificationPath rid) (updateVerificationStatus env rid).
Proof.
  apply confined_logged, confined_bind; [apply confined_getDocuments |].
  intros documents. apply confined_bind; [apply confined_now |].
  intros t. apply confined_bind; [apply confined_setDoc | intros _; apply confined_ret].
Qed.

Lemma confined_getVerificationStatus (rid : string) :
  confined (verificationPath rid) (getVerificationStatus env rid).
Proof.
  apply confined_logged, confined_bind; [apply confined_getDoc |].
  intros [data |]; [apply confined_ret |].
  apply confined_bind; [apply confined_now |].
  intros t. apply confined_bind; [apply confined_setDoc | intros _; apply confined_ret].
Qed.

Lemma confined_uploadDocument (rid : string) (file : File) (ty : string)
    (expiry : option string) :
  confined (verificationPath rid) (uploadDocument env rid file ty expiry).
Proof.
  apply confined_logged, confined_bind; [apply confined_now |].
  intros t. apply confined_bind; [apply confined_uploadBytes |].
  intros _. apply confined_bind; [apply confined_getDownloadURL |].
  intros url. apply confined_bind; [apply confined_newId |].
  intros i. apply confined_bind; [apply confined_now |].
  intros t'. apply confined_bind; [apply confined_setDoc |].
  intros _. apply confined_bind; [| intros _; apply confined_ret].
  apply confined_updateVerificationStatus.
Qed.

Lemma confined_deleteDocument (rid : string) (d : VerificationDocument) :
  confined (verificationPath rid) (deleteDocument env rid d).
Proof.
  apply confined_logged, confined_bind; [apply confined_deleteObject |].
  intros _. apply confined_bind; [apply confined_deleteDoc |].
  intros _. apply confined_bind; [| intros _; apply confined_ret].
  apply confined_updateVerificationStatus.
Qed.
End ConfinedMethods.

(** X2.  A call for one restaurant, on any path, leaves every record
    outside the verification collection of that restaurant as it is: the
    records of every other restaurant (its documents and its status) and
    of every other collection, such as the users. *)
Theorem call_confined (env : Env) (c : Call) (w : World) :
  let w' := snd (call env c w) in
  (forall r, fst r ≠ verificationPath (restaurant_of c) ->
     fs_get r (firestore w') = fs_get r (firestore w))
  /\ (forall other, other ≠ restaurant_of c ->
        fs_query (verificationPath other) (firestore w')
        = fs_query (verificationPath other) (firestore w)).
Proof.
  intros w'.
  assert (Hout : outside (verificationPath (restaurant_of c)) (firestore w')
                 = outside (verificationPath (restaurant_of c)) (firestore w)).
  { assert (Hgen : forall A (m : M A), confined (verificationPath (restaurant_of c)) m ->
        outside (verificationPath (restaurant_of c)) (firestore (snd (thrown (m w))))
        = outside (verificationPath (restaurant_of c)) (firestore w)).
    { intros A m Hm. specialize (Hm w). destruct (m w) as [[a | e] w1]; exact Hm. }
    unfold w'. destruct c; simpl call; apply Hgen; simpl restaurant_of.
    - apply confined_uploadDocument.
    - apply confined_getVerificationStatus.
    - apply confined_getDocuments.
    - apply confined_updateVerificationStatus.
    - apply confined_deleteDocument. }
  split.
  - intros r Hr. rewrite <- (fs_get_outside _ r (firestore w')) by exact Hr.
    rewrite Hout. apply fs_get_outside. exact Hr.
  - intros other Hother.
    assert (Hc : verificationPath other ≠ verificationPath (restaurant_of c))
      by (intros H; apply Hother, verificationPath_inj, H).
    rewrite <- (fs_query_outside _ _ (firestore w')) by exact Hc.
    rewrite Hout. apply fs_query_outside. exact Hc.
Qed.

Section StoreRoundTrips.
Import verificationService.
Variable env : Env.

(** X13.  What a successful upload leaves: the record is stored under the
    generated identifier and reads back as the returned document (without
    the [expiryDate] property when no expiry date was given and the
    database ignores undefined properties), the blob is stored under the
    location built from restaurant, type and time, and no other record
    than this one and the status has changed.  The upload is one whose
    record the database accepts: it has an expiry date, or the database
    ignores undefined properties. *)
Theorem uploadDocument_stores (restaurantId : string) (file : File) (ty : string)
    (expiry : option string) (w : World) :
  let c := verificationPath restaurantId in
  let loc := "restaurants/" +:+ restaurantId +:+ "/verification/" +:+ ty +:+ "_"
               +:+ string_of_Z (clock env (ticks w)) in
  quiet env (length (requests w)) 5 ->
  is_Some expiry \/ ignoreUndefinedProperties env = true ->
  autoId env (drawn w) ≠ "status" ->
  exists d w',
    uploadDocument env restaurantId file ty expiry w = (Ok d, w')
    /\ id d = autoId env (drawn w) /\ type d = ty /\ status d = "pending"
    /\ fileName d = name file /\ fileUrl d = downloadURL env loc
    /\ expiryDate d = expiry
    /\ fs_get (c, id d) (firestore w') = Some (strip_undefined (document_fields d))
    /\ (is_Some expiry -> strip_undefined (document_fields d) = document_fields d)
    /\ storage w' !! loc = Some file
    /\ (forall r, r ≠ (c, id d) -> r ≠ (c, "status") ->
          fs_get r (firestore w') = fs_get r (firestore w)).
Proof.
  intros c loc Hq Hacc Hid.
  eexists _, _. split; [apply uploadDocument_run; [exact Hq | exact Hacc] |].
  simpl. repeat split.
  - rewrite fs_get_set_other by congruence. apply fs_get_set.
  - intros Hsome. apply stripped_document_dated. exact Hsome.
  - apply lookup_insert_eq.
  - intros r Hr Hs. unfold c in *. rewrite !fs_get_set_other by congruence. reflexivity.
Qed.

(** X14.  What a successful deleteDocument leaves: no record under the
    identifier of the document, in the store and in the collection, and
    the blob gone; no other record than this one and the status has
    changed. *)
Theorem deleteDocument_removes (restaurantId : string) (d : VerificationDocument)
    (w : World) :
  let c := verificationPath restaurantId in
  let loc := locationOf env (fileUrl d) in
  quiet env (length (requests w)) 4 ->
  is_Some (storage w !! loc) ->
  id d ≠ "status" ->
  exists w',
    deleteDocument env restaurantId d w = (Ok tt, w')
    /\ fs_get (c, id d) (firestore w') = None
    /\ (forall data, (id d, data) ∉ fs_query c (firestore w'))
    /\ storage w' !! loc = None
    /\ (forall r, r ≠ (c, id d) -> r ≠ (c, "status") ->
          fs_get r (firestore w') = fs_get r (firestore w)).
Proof.
  intros c loc Hq Hblob Hid.
  eexists. split; [apply deleteDocument_run; assumption |].
  simpl. fold c loc.
  assert (Hgone : fs_get (c, id d)
            (fs_set (c, "status")
               (status_fields
                  (recompute (documents_of (fs_query c (fs_delete (c, id d) (firestore w))))
                     (clock env (ticks w))))
               (fs_delete (c, id d) (firestore w))) = None).
  { rewrite fs_get_set_other by congruence. apply fs_get_delete. }
  split; [exact Hgone |]. split; [| split].
  - intros data Hin. apply fs_query_elem in Hin.
    rewrite <- fs_delete_set_other in Hin by congruence.
    unfold fs_delete in Hin. apply list_elem_of_filter in Hin as [Hne _].
    simpl in Hne. congruence.
  - apply lookup_delete_eq.
  - intros r Hr Hs. unfold c in *. rewrite fs_get_set_other by congruence.
    apply fs_get_delete_other. congruence.
Qed.
End StoreRoundTrips.

(** ** The settings page *)

Section SettingsMore.
Import RestaurantSettings.
Variable env : Env.

Lemma handleSubmit_run (uid : string) (p : PageState) (w : World) (old : Fields) :
  fault env (length (requests w)) = None ->
  fs_get ("users", uid) (firestore w) = Some old ->
  handleSubmit env (Some uid) p w
  = ({| settings := settings p; loading := loading p; saving := false;
        error := ""; success := "Settings updated successfully" |},
     {| firestore :=
          fs_set ("users", uid)
            (spread old
               (spread (settings p)
                  {[ "lastUpdated" := VStr (toISOString (clock env (ticks w))) ]}))
            (firestore w);
        storage := storage w;
        console := console w;
        requests :=
          (UpdateDoc ("users", uid)
             (spread (settings p)
                {[ "lastUpdated" := VStr (toISOString (clock env (ticks w))) ]}),
           None) :: requests w;
        ticks := S (ticks w);
        drawn := drawn w |}).
Proof.
  intros H0 Hold. unfold handleSubmit, bind, now. simpl.
  rewrite (updateDoc_ok env _ _ old) by assumption. reflexivity.
Qed.

Lemma fetchSettings_run (uid : string) (p : PageState) (w : World) :
  fault env (length (requests w)) = None ->
  fetchSettings env (Some uid) p w
  = ({| settings := match fs_get ("users", uid) (firestore w) with
                    | Some data => data
                    | None => settings p
                    end;
        loading := false; saving := saving p;
        error := error p; success := success p |},
     log_request (GetDoc ("users", uid)) None w).
Proof. intros H0. unfold fetchSettings. rewrite getDoc_ok by exact H0. reflexivity. Qed.

(** X15.  Every submit of a signed-in user ends with [saving] off, the
    form as it was, and one of two outcomes.  Success: the record existed,
    the request was granted, and the page shows the success message and no
    error.  Failure: the page shows the error message and no success, the
    error is on the console, and the store is as before; in particular a
    submit never creates a record.  No record of another user or
    collection changes either way. *)
Theorem handleSubmit_outcome (uid : string) (p : PageState) (w : World) :
  let p' := fst (handleSubmit env (Some uid) p w) in
  let w' := snd (handleSubmit env (Some uid) p w) in
  saving p' = false /\ settings p' = settings p /\ loading p' = loading p
  /\ (forall r, r ≠ ("users", uid) -> fs_get r (firestore w') = fs_get r (firestore w))
  /\ ((error p' = "" /\ success p' = "Settings updated successfully"
       /\ is_Some (fs_get ("users", uid) (firestore w))
       /\ fault env (length (requests w)) = None
       /\ console w' = console w)
      \/ (error p' = "Failed to update settings" /\ success p' = ""
          /\ firestore w' = firestore w
          /\ exists e, console w' = ("Error updating settings:", e) :: console w)).
Proof.
  unfold handleSubmit, bind, now, updateDoc, request. simpl.
  destruct (fault env (length (requests w))) as [e |] eqn:Hf; simpl.
  - repeat split; eauto 10.
  - destruct (fs_get ("users", uid) (firestore w)) as [old |] eqn:Hold; simpl.
    + repeat split; [| left; repeat split; eauto].
      intros r Hr. apply fs_get_set_other. congruence.
    + repeat split; eauto 10.
Qed.

(** X16.  fetchSettings only reads.  For a signed-in user it always ends
    with [loading] off and never writes, not even when there is no record;
    a granted read loads the record, a missing record or a refused read
    leaves the form as it is, and a refused read shows the load error.
    Without a user it does nothing at all. *)
Theorem fetchSettings_outcome (user : option string) (p : PageState) (w : World) :
  let p' := fst (fetchSettings env user p w) in
  let w' := snd (fetchSettings env user p w) in
  firestore w' = firestore w /\ storage w' = storage w
  /\ saving p' = saving p /\ success p' = success p
  /\ match user with
     | None => p' = p /\ w' = w
     | Some uid =>
         loading p' = false
         /\ match fault env (length (requests w)) with
            | None =>
                error p' = error p
                /\ settings p' = match fs_get ("users", uid) (firestore w) with
                                 | Some data => data
                                 | None => settings p
                                 end
            | Some e =>
                error p' = "Failed to load restaurant settings"
                /\ settings p' = settings p
                /\ console w' = ("Error fetching settings:", e) :: console w
            end
     end.
Proof.
  destruct user as [uid |]; [| simpl; repeat split; reflexivity].
  unfold fetchSettings, getDoc, request.
  destruct (fault env (length (requests w))) as [e |]; simpl; repeat split; reflexivity.
Qed.

(** X17.  Load, then save without an edit: the stored record is the old
    one with [lastUpdated] set to the time of the submit, nothing else
    added, changed or dropped. *)
Theorem fetch_then_submit (uid : string) (p : PageState) (w : World) (old : Fields) :
  quiet env (length (requests w)) 2 ->
  fs_get ("users", uid) (firestore w) = Some old ->
  let r1 := fetchSettings env (Some uid) p w in
  let r2 := handleSubmit env (Some uid) (fst r1) (snd r1) in
  settings (fst r1) = old
  /\ success (fst r2) = "Settings updated successfully"
  /\ fs_get ("users", uid) (firestore (snd r2))
     = Some (<["lastUpdated" := VStr (toISOString (clock env (ticks w)))]> old).
Proof.
  intros (H0 & H1 & _) Hold r1 r2. unfold r2, r1.
  rewrite fetchSettings_run by exact H0. rewrite Hold. cbn [fst snd].
  rewrite (handleSubmit_run _ _ _ old) by assumption. cbn [fst snd settings success firestore].
  split; [reflexivity |]. split; [reflexivity |]. rewrite fs_get_set. f_equal.
  unfold spread. rewrite insert_union_singleton_l.
  rewrite <- (assoc_L (∪)). f_equal. apply map_eq. intros k.
  rewrite lookup_union. destruct (old !! k); reflexivity.
Qed.

(** X18.  Edit, save, load: the value typed into an input is the value
    read back under its name, when the record exists.  The one name this
    fails for is [lastUpdated]: whatever the form holds under it is
    replaced by the time of the submit. *)
Theorem edit_submit_fetch (uid name value : string) (p p0 : PageState) (w : World) :
  quiet env (length (requests w)) 2 ->
  is_Some (fs_get ("users", uid) (firestore w)) ->
  let r1 := handleSubmit env (Some uid) (handleChange name value p) w in
  let r2 := fetchSettings env (Some uid) p0 (snd r1) in
  (name ≠ "lastUpdated" -> settings (fst r2) !! name = Some (VStr value))
  /\ settings (fst r2) !! "lastUpdated"
     = Some (VStr (toISOString (clock env (ticks w)))).
Proof.
  intros (H0 & H1 & _) [old Hold] r1 r2. unfold r2, r1.
  rewrite (handleSubmit_run _ _ _ old) by assumption. cbn [snd].
  rewrite fetchSettings_run by exact H1. cbn [fst settings firestore]. rewrite fs_get_set.
  unfold spread. split.
  - intros Hne. apply lookup_union_Some_l.
    rewrite lookup_union_r by (apply lookup_singleton_ne; congruence).
    apply lookup_union_Some_l, lookup_singleton_eq.
  - apply lookup_union_Some_l, lookup_union_Some_l, lookup_singleton_eq.
Qed.
End SettingsMore.

Section ExtraWitnesses.
Import verificationService.

Lemma updateVerificationStatus_stable_witness :
  exists st1 w1 st2 w2,
    updateVerificationStatus calm "r1" contested_world = (Ok st1, w1)
    /\ updateVerificationStatus calm "r1" w1 = (Ok st2, w2)
    /\ rejectedDocuments st2 = rejectedDocuments st1
    /\ isVerified st2 = isVerified st1.
Proof.
  destruct (updateVerificationStatus_stable calm "r1" contested_world)
    as (st1 & w1 & st2 & w2 & H1 & H2 & Hv & _ & _ & Hr & _).
  - simpl. tauto.
  - intros old Hold. vm_compute in Hold. injection Hold as <-. reflexivity.
  - exists st1, w1, st2, w2. auto.
Defined.

Lemma updateVerificationStatus_order_witness :
  firestore verified_world ≡ₚ firestore shuffled_world
  /\ exists st w1 st' w1',
       updateVerificationStatus calm "r1" verified_world = (Ok st, w1)
       /\ updateVerificationStatus calm "r1" shuffled_world = (Ok st', w1')
       /\ isVerified st = isVerified st'.
Proof.
  assert (Hp : firestore verified_world ≡ₚ firestore shuffled_world)
    by (simpl; apply Permutation_rev).
  split; [exact Hp |].
  destruct (updateVerificationStatus_order calm "r1" verified_world shuffled_world)
    as (st & w1 & st' & w1' & H1 & H2 & Hv & _); [simpl; tauto | simpl; tauto | exact Hp |].
  exists st, w1, st', w1'. auto.
Defined.

Lemma updateVerificationStatus_record_shape_witness :
  exists st w',
    updateVerificationStatus calm "r1" contested_world = (Ok st, w')
    /\ (length (rejectedDocuments st) <= 6)%nat.
Proof.
  destruct (updateVerificationStatus_record_shape calm "r1" contested_world)
    as (st & w' & Hrun & _ & _ & Hlen & _); [simpl; tauto |].
  exists st, w'. split; [exact Hrun |].
  etransitivity; [exact Hlen |]. vm_compute. repeat constructor.
Defined.

Lemma uploadDocument_keeps_verdict_witness :
  exists st0 w0 d w1 st,
    updateVerificationStatus lenient "r1" verified_world = (Ok st0, w0)
    /\ uploadDocument lenient "r1" sample_file "identity" None verified_world = (Ok d, w1)
    /\ fs_get (verificationPath "r1", "status") (firestore w1) = Some (status_fields st)
    /\ isVerified st = isVerified st0
    /\ documentsSubmitted st = true.
Proof.
  destruct (uploadDocument_keeps_verdict lenient "r1" sample_file "identity" None
              verified_world)
    as (st0 & w0 & d & w1 & st & H0 & H1 & H2 & Hv & _ & _ & Hs).
  - simpl. tauto.
  - right. reflexivity.
  - vm_compute. reflexivity.
  - exists st0, w0, d, w1, st. repeat split; try assumption. apply Hs. discriminate.
Defined.

Lemma uploadDocument_orphan_blob_witness :
  let e := FirebaseError "permission-denied" in
  exists w',
    uploadDocument (refusing 2 e) "r1" sample_file "identity" (Some "2026-01-01")
      empty_world
    = (Threw e, w')
    /\ firestore w' = []
    /\ storage w' !! "restaurants/r1/verification/identity_1700000000000"
       = Some sample_file.
Proof.
  intros e.
  destruct (uploadDocument_orphan_blob (refusing 2 e) "r1" sample_file "identity"
              (Some "2026-01-01") empty_world e)
    as (w' & Hrun & Hfs & _ & Hblob & _).
  - simpl. tauto.
  - reflexivity.
  - exists w'. split; [exact Hrun |]. split; [exact Hfs | exact Hblob].
Defined.

Lemma uploadDocument_stale_status_witness :
  let e := FirebaseError "unavailable" in
  exists w' data,
    uploadDocument (refusing 4 e) "r1" sample_file "identity" (Some "2026-01-01")
      verified_world
    = (Threw e, w')
    /\ fs_get (verificationPath "r1", "vdoc0000000000000000") (firestore w') = Some data
    /\ fs_get (verificationPath "r1", "status") (firestore w')
       = fs_get (verificationPath "r1", "status") (firestore verified_world).
Proof.
  intros e.
  destruct (uploadDocument_stale_status (refusing 4 e) "r1" sample_file "identity"
              (Some "2026-01-01") verified_world e)
    as (w' & data & Hrun & Hdoc & _ & _ & Hstatus & _).
  - simpl. tauto.
  - left. eauto.
  - right. split; reflexivity.
  - vm_compute. discriminate.
  - exists w', data. split; [exact Hrun |]. split; [exact Hdoc | exact Hstatus].
Defined.

Lemma getVerificationStatus_twice_witness :
  exists data w1 w2,
    getVerificationStatus calm "r1" empty_world = (Ok data, w1)
    /\ getVerificationStatus calm "r1" w1 = (Ok data, w2)
    /\ length (requests w1) = 2%nat /\ length (requests w2) = 3%nat.
Proof.
  destruct (getVerificationStatus_twice calm "r1" empty_world)
    as (data & w1 & w2 & H1 & H2 & _ & _ & Hreq); [simpl; tauto |].
  exists data, w1, w2. split; [exact H1 |]. split; [exact H2 |].
  assert (Hlen : length (requests w1) = 2%nat).
  { apply (f_equal snd) in H1. simpl in H1. rewrite <- H1. vm_compute. reflexivity. }
  split; [exact Hlen |]. rewrite Hreq. simpl. rewrite Hlen. reflexivity.
Defined.

Lemma deleteDocument_retry_fails_witness :
  let e := FirebaseError "unavailable" in
  let d := sample_document "c" "identity" "approved" in
  exists w1 w2,
    deleteDocument (refusing 1 e) "r1" d verified_world = (Threw e, w1)
    /\ deleteDocument (refusing 1 e) "r1" d w1
       = (Threw (FirebaseError "storage/object-not-found"), w2)
    /\ firestore w2 = firestore verified_world.
Proof.
  intros e d.
  destruct (deleteDocument_retry_fails (refusing 1 e) "r1" d verified_world e)
    as (w1 & e' & w2 & H1 & H2 & He & Hfs & _).
  - vm_compute. eauto.
  - reflexivity.
  - reflexivity.
  - exists w1, w2. split; [exact H1 |]. rewrite <- (He eq_refl). auto.
Defined.

Lemma upload_then_delete_witness :
  exists d w1 w2,
    uploadDocument calm "r1" sample_file "identity" (Some "2026-01-01") verified_world
    = (Ok d, w1)
    /\ deleteDocument calm "r1" d w1 = (Ok tt, w2)
    /\ storage w2 = storage verified_world
    /\ fs_get (verificationPath "r1", "c") (firestore w2)
       = fs_get (verificationPath "r1", "c") (firestore verified_world).
Proof.
  destruct (upload_then_delete calm "r1" sample_file "identity" (Some "2026-01-01")
              verified_world)
    as (d & w1 & w2 & st & H1 & H2 & _ & Hother & _ & Hstore).
  - simpl. tauto.
  - left. eauto.
  - vm_compute. reflexivity.
  - vm_compute. discriminate.
  - vm_compute. reflexivity.
  - exists d, w1, w2. split; [exact H1 |]. split; [exact H2 |].
    split; [apply Hstore; vm_compute; reflexivity |].
    apply Hother. vm_compute. discriminate.
Defined.

Lemma uploadDocument_stores_witness :
  exists d w',
    uploadDocument calm "r1" sample_file "identity" (Some "2026-01-01") empty_world
    = (Ok d, w')
    /\ id d = "vdoc0000000000000000"
    /\ expiryDate d = Some "2026-01-01"
    /\ fs_get (verificationPath "r1", "vdoc0000000000000000") (firestore w')
       = Some (document_fields d).
Proof.
  destruct (uploadDocument_stores calm "r1" sample_file "identity" (Some "2026-01-01")
              empty_world)
    as (d & w' & Hrun & Hid & _ & _ & _ & _ & Hex & Hget & Hsame & _).
  - simpl. tauto.
  - left. eauto.
  - vm_compute. discriminate.
  - exists d, w'. split; [exact Hrun |].
    split; [rewrite Hid; vm_compute; reflexivity |].
    split; [exact Hex |]. rewrite <- Hsame by eauto. rewrite <- Hget, Hid. reflexivity.
Defined.

Lemma deleteDocument_removes_witness :
  exists w',
    deleteDocument calm "r1" (sample_document "c" "identity" "approved") verified_world
    = (Ok tt, w')
    /\ fs_get (verificationPath "r1", "c") (firestore w') = None
    /\ fs_get (verificationPath "r1", "a") (firestore w')
       = fs_get (verificationPath "r1", "a") (firestore verified_world).
Proof.
  destruct (deleteDocument_removes calm "r1" (sample_document "c" "identity" "approved")
              verified_world)
    as (w' & Hrun & Hgone & _ & _ & Hother).
  - simpl. tauto.
  - vm_compute. eauto.
  - discriminate.
  - exists w'. split; [exact Hrun |]. split; [exact Hgone |].
    apply Hother; vm_compute; discriminate.
Defined.
End ExtraWitnesses.

Section ExtraSettingsWitnesses.
Import RestaurantSettings.

Lemma fetch_then_submit_witness :
  exists old,
    fs_get ("users", "u1") (firestore user_world) = Some old
    /\ fs_get ("users", "u1")
         (firestore
            (snd (handleSubmit calm (Some "u1")
                    (fst (fetchSettings calm (Some "u1") initial user_world))
                    (snd (fetchSettings calm (Some "u1") initial user_world)))))
       = Some (<["lastUpdated" := VStr "2023-11-14T22:13:20.000Z"]> old).
Proof.
  eexists. split; [reflexivity |].
  refine (proj2 (proj2 (fetch_then_submit calm "u1" initial user_world _ _ eq_refl))).
  simpl. tauto.
Defined.

Lemma edit_submit_fetch_witness :
  settings
    (fst (fetchSettings calm (Some "u1") initial
            (snd (handleSubmit calm (Some "u1")
                    (handleChange "phone" "08099999999" filled_page) user_world))))
  !! "phone" = Some (VStr "08099999999").
Proof.
  refine (proj1 (edit_submit_fetch calm "u1" "phone" "08099999999" filled_page initial
                   user_world _ _) _).
  - simpl. tauto.
  - vm_compute. eauto.
  - discriminate.
Defined.
End ExtraSettingsWitnesses.

Section UploadWithoutExpiry.
Import verificationService.
Variable env : Env.

(** X19.  An upload without an expiry date into a database with the
    default set-up never stores a record: the object handed to [setDoc]
    has [expiryDate: undefined], the write fails with invalid-argument,
    and uploadDocument logs and throws that error after the blob was
    uploaded; the document store is unchanged and the blob stays. *)
Theorem uploadDocument_without_expiry (restaurantId : string) (file : File)
    (ty : string) (w : World) :
  let loc := "restaurants/" +:+ restaurantId +:+ "/verification/" +:+ ty +:+ "_"
               +:+ string_of_Z (clock env (ticks w)) in
  let e := FirebaseError "invalid-argument" in
  quiet env (length (requests w)) 3 ->
  ignoreUndefinedProperties env = false ->
  exists w',
    uploadDocument env restaurantId file ty None w = (Threw e, w')
    /\ firestore w' = firestore w
    /\ storage w' !! loc = Some file
    /\ console w' = ("Error uploading document:", e) :: console w.
Proof.
  intros loc e (H0 & H1 & H2 & _) Hign.
  unfold uploadDocument, logged, try_catch, bind. unfold now at 1. simpl.
  rewrite uploadBytes_ok by exact H0. fold loc.
  rewrite getDownloadURL_ok; [| exact H1 | simpl; rewrite lookup_insert_eq; eauto].
  unfold newId, now. simpl.
  rewrite setDoc_invalid;
    [| exact H2 | apply document_fields_undefined; reflexivity | exact Hign].
  eexists. split; [reflexivity |]. simpl.
  repeat split. apply lookup_insert_eq.
Qed.
End UploadWithoutExpiry.

Lemma uploadDocument_without_expiry_witness :
  exists w',
    verificationService.uploadDocument calm "r1" sample_file "identity" None empty_world
    = (Threw (FirebaseError "invalid-argument"), w')
    /\ firestore w' = []
    /\ storage w' !! "restaurants/r1/verification/identity_1700000000000"
       = Some sample_file.
Proof.
  destruct (uploadDocument_without_expiry calm "r1" sample_file "identity" empty_world)
    as (w' & Hrun & Hfs & Hblob & _).
  - simpl. tauto.
  - reflexivity.
  - exists w'. split; [exact Hrun |]. split; [exact Hfs | exact Hblob].
Defined.
